(** * flowcast-pipeline-pro: the GStreamer WebSocket control plane

    A shallow embedding of [server.py]: the [GstreamerPipeline] class, the
    module-level registry [pipelines] and client set [clients], the fan-out
    [broadcast_message], the telemetry loop [send_stats_updates] and
    [handle_websocket] with the branches of its receive loop.

    The GStreamer engine, the asyncio clock and the websocket transport are
    external: they are an interface ([Runtime]) over an opaque [world], and
    every statement below holds for all of its implementations. Any call
    into the engine or the transport may raise, as any Python call may.

    Inbound messages are taken as parsed and typed the way the wire protocol
    has them: ids and descriptions are strings, a stage has a string type and
    string properties. Logging is left out. The server is one dispatch
    context: each coroutine runs to its end before the next one starts.

    A bus callback runs on another thread, the one of the GLib main loop.
    What it does there is modelled as written: it makes the coroutine of a
    broadcast, looks up the event loop of its own thread, which may raise,
    and hands the coroutine to that loop ([EventLoop]); the broadcast runs
    in the dispatch context, if it was handed over.

    The floats of [get_status] are binary64 numbers, written as a mantissa
    and an exponent, with the rounding of each operation spelled out. *)

From Stdlib Require Import ZArith String List Bool Lia DecimalString.
From stdpp Require Import base option list strings gmap.

Set Warnings "-register-all".
Local Open Scope string_scope.
Local Open Scope Z_scope.

(** ** Python values *)

(** The JSON-shaped values that travel in replies and broadcasts. A [VDict]
    keeps its items in insertion order, as a Python dict does. *)
Inductive value : Type :=
| VNone
| VBool (b : bool)
| VInt (n : Z)
| VStr (s : string)
| VList (l : list value)
| VDict (items : list (string * value)).

(** Python dicts with string keys, as insertion-ordered association lists. *)
Section PyDict.
Context {V : Type}.

(** [k in d] *)
Fixpoint py_contains (k : string) (d : list (string * V)) : bool :=
  match d with
  | [] => false
  | (k', _) :: d' => if String.eqb k k' then true else py_contains k d'
  end.

(** [d.get(k)] *)
Fixpoint py_get (k : string) (d : list (string * V)) : option V :=
  match d with
  | [] => None
  | (k', v) :: d' => if String.eqb k k' then Some v else py_get k d'
  end.

(** [d[k] = v]: an existing key keeps its position, a new one goes last. *)
Fixpoint py_set (k : string) (v : V) (d : list (string * V)) : list (string * V) :=
  match d with
  | [] => [(k, v)]
  | (k', v') :: d' =>
      if String.eqb k k' then (k', v) :: d' else (k', v') :: py_set k v d'
  end.

(** [del d[k]] for a key that is present. *)
Fixpoint py_del (k : string) (d : list (string * V)) : list (string * V) :=
  match d with
  | [] => []
  | (k', v') :: d' =>
      if String.eqb k k' then d' else (k', v') :: py_del k d'
  end.
End PyDict.

(** [d.get(k)] on a [value] that is a dict. *)
Definition field (k : string) (d : value) : option value :=
  match d with
  | VDict items => py_get k items
  | _ => None
  end.

(** [str(n)] for an int. *)
Definition str_of_int (n : Z) : string := NilZero.string_of_int (Z.to_int n).

(** ** Exceptions and the monad of the dispatch context *)

Inductive exn : Type :=
| ConnectionClosed (reason : string)
| Error (msg : string).

(** [str(e)] *)
Definition str_of_exn (e : exn) : string :=
  match e with
  | ConnectionClosed reason => reason
  | Error msg => msg
  end.

Inductive outcome (A : Type) : Type :=
| Return (a : A)
| Raise (e : exn).
Arguments Return {A} a.
Arguments Raise {A} e.

(** A computation over a mutable state [S]: what was mutated before an
    exception stays mutated. *)
Definition M (S A : Type) : Type := S -> outcome A * S.

Definition ret {S A : Type} (a : A) : M S A := fun s => (Return a, s).

Definition bind {S A B : Type} (m : M S A) (k : A -> M S B) : M S B :=
  fun s =>
    match m s with
    | (Return a, s') => k a s'
    | (Raise e, s') => (Raise e, s')
    end.

Definition raise {S A : Type} (e : exn) : M S A := fun s => (Raise e, s).

(** [try: m  except Exception as e: h(e)] *)
Definition try_except {S A : Type} (m : M S A) (h : exn -> M S A) : M S A :=
  fun s =>
    match m s with
    | (Return a, s') => (Return a, s')
    | (Raise e, s') => h e s'
    end.

(** [m] with its exception, if any, as a value. *)
Definition attempt {S A : Type} (m : M S A) : M S (outcome A) :=
  fun s => let (r, s') := m s in (Return r, s').

Notation "'let!' x ':=' m 'in' k" := (bind m (fun x => k))
  (at level 10, x pattern, m at level 100, k at level 200).
Notation "m ';;' k" := (bind m (fun _ => k))
  (at level 100, k at level 200, right associativity).

(** [for x in xs: body(x)] *)
Fixpoint for_each {S A : Type} (xs : list A) (body : A -> M S unit) : M S unit :=
  match xs with
  | [] => ret tt
  | x :: xs' => body x ;; for_each xs' body
  end.

(** ** The external collaborators *)

Inductive GstState : Type := VOID_PENDING | NULL | READY | PAUSED | PLAYING.

Inductive StateChangeReturn : Type := FAILURE | SUCCESS | ASYNC | NO_PREROLL.

Definition StateChangeReturn_eqb (a b : StateChangeReturn) : bool :=
  match a, b with
  | FAILURE, FAILURE | SUCCESS, SUCCESS | ASYNC, ASYNC | NO_PREROLL, NO_PREROLL => true
  | _, _ => false
  end.

(** [PIPELINE_STATES] *)
Definition PIPELINE_STATES (s : GstState) : option string :=
  match s with
  | NULL => Some "NULL"
  | READY => Some "READY"
  | PAUSED => Some "PAUSED"
  | PLAYING => Some "PLAYING"
  | VOID_PENDING => None
  end.

(** Object identities: engine pipelines, their buses, client connections. *)
Definition handle : Type := nat.
Definition bus : Type := nat.
Definition client : Type := nat.

(** The engine, the event-loop clock and the transport, over their own
    hidden state. [loop_time_ms] is [int(asyncio.get_event_loop().time() * 1000)],
    a read of the monotonic clock: it returns. *)
Class Runtime : Type := {
  world : Type;
  parse_launch : string -> M world handle;
  set_name : handle -> string -> M world unit;
  get_bus : handle -> M world bus;
  add_watch : bus -> M world Z;
  remove_watch : bus -> Z -> M world unit;
  set_state : handle -> GstState -> M world StateChangeReturn;
  get_state : handle -> M world GstState;
  query_position : handle -> M world (bool * Z);
  loop_time_ms : world -> Z * world;
  ws_send : client -> value -> M world unit
}.

(** What the server does that the outside can see. The dict handed to
    [json.dumps] is kept as it is; the outcome is what [client.send] did. *)
Inductive event : Type :=
| Sent (c : client) (message : value) (r : outcome unit)
| Slept (seconds : Z).

(** The ["type"] of a message that was sent, and the ["errorCode"] in its
    payload. *)
Definition type_of (ev : event) : option value :=
  match ev with
  | Sent _ m _ => field "type" m
  | Slept _ => None
  end.

Definition error_code_of (ev : event) : option value :=
  match ev with
  | Sent _ m _ =>
      match field "payload" m with
      | Some payload => field "errorCode" payload
      | None => None
      end
  | Slept _ => None
  end.

(** The sleeps in a trace, in order. *)
Definition sleeps (tr : list event) : list Z :=
  flat_map (fun ev => match ev with Slept seconds => [seconds] | Sent _ _ _ => [] end) tr.

Section Globals.
Context {R : Runtime}.

(** The module-level state next to the registry: [clients], the outside
    world, and the trace of what was sent. *)
Record Globals : Type := {
  clients : gset client;
  the_world : world;
  trace : list event
}.

(** A call into the runtime. *)
Definition call {A : Type} (m : M world A) : M Globals A :=
  fun g =>
    let (r, w) := m (the_world g) in
    (r, {| clients := clients g; the_world := w; trace := trace g |}).

(** The clock, in milliseconds. *)
Definition now_ms : M Globals Z :=
  fun g =>
    let (t, w) := loop_time_ms (the_world g) in
    (Return t, {| clients := clients g; the_world := w; trace := trace g |}).

Definition emit (ev : event) : M Globals unit :=
  fun g =>
    (Return tt,
     {| clients := clients g; the_world := the_world g; trace := trace g ++ [ev] |}).

(** [client.send(m)], as one awaitable: its outcome is a value here, the
    awaiting code decides what an exception in it does. *)
Definition send_to (c : client) (m : value) : M Globals (outcome unit) :=
  fun g =>
    let (r, w) := ws_send c m (the_world g) in
    (Return r,
     {| clients := clients g; the_world := w; trace := trace g ++ [Sent c m r] |}).

(** [await websocket.send(m)] *)
Definition send (c : client) (m : value) : M Globals unit :=
  let! r := send_to c m in
  match r with
  | Return _ => ret tt
  | Raise e => raise e
  end.

(** The first exception among results, if any. *)
Fixpoint first_exception {A : Type} (rs : list (outcome A)) : option exn :=
  match rs with
  | [] => None
  | Return _ :: rs' => first_exception rs'
  | Raise e :: _ => Some e
  end.

Fixpoint run_all {A : Type} (aws : list (M Globals (outcome A)))
  : M Globals (list (outcome A)) :=
  match aws with
  | [] => ret []
  | aw :: aws' =>
      let! r := aw in
      let! rs := run_all aws' in
      ret (r :: rs)
  end.

(** [await asyncio.gather] over the awaitables [aws], with its
    [return_exceptions] flag: every awaitable runs; with
    [return_exceptions=True] exceptions are results, without it the first
    one is raised to the caller. *)
Definition gather {A : Type} (aws : list (M Globals (outcome A)))
    (return_exceptions : bool) : M Globals (list (outcome A)) :=
  let! rs := run_all aws in
  if return_exceptions then ret rs
  else match first_exception rs with
       | Some e => raise e
       | None => ret rs
       end.

(** [broadcast_message(message)]. The dict is mutated in place, so it is
    handed back as the caller sees it afterwards. *)
Definition broadcast_message (message : list (string * value))
  : M Globals (list (string * value)) :=
  fun g =>
    if bool_decide (clients g = ∅) then (Return message, g)
    else
      (let! now := now_ms in
       let message := py_set "timestamp" (VInt now) message in
       let encoded_message := VDict message in
       gather (map (fun c => send_to c encoded_message) (elements (clients g))) true ;;
       ret message) g.
End Globals.

(** ** Python numbers *)

(** A finite float, a binary64: [mantissa * 2 ^ exponent]. *)
Record float : Type := { mantissa : Z; exponent : Z }.

Definition pow2 (z : Z) : Z := 2 ^ Z.max z 0.

(** The float nearest to [n / d] for [d > 0], a tie going to the even
    mantissa: the rounding that every float operation ends with. The
    mantissa has 53 bits; the exponent is not bounded, which is how a
    binary64 behaves between [2 ^ -1022] and [2 ^ 1024], and quotients of a
    64-bit count of nanoseconds by [10 ^ 9], and thirty times those, lie
    between [10 ^ -9] and [10 ^ 12]. *)
Definition nearest_float (n d : Z) : float :=
  if n =? 0 then {| mantissa := 0; exponent := 0 |}
  else
    let a := Z.abs n in
    let k := Z.log2 a - Z.log2 d in
    let e := (if d * pow2 k <=? a * pow2 (- k) then k else k - 1) - 52 in
    let num := a * pow2 (- e) in
    let den := d * pow2 e in
    let m := num / den in
    let r := num mod den in
    let m := if (den <? 2 * r) || ((2 * r =? den) && Z.odd m) then m + 1 else m in
    {| mantissa := Z.sgn n * m; exponent := e |}.

(** [a / b] on two ints: the float nearest to the quotient. *)
Definition true_div (a b : Z) : float := nearest_float a b.

(** [float(z)] *)
Definition float_of_int (z : Z) : float := nearest_float z 1.

(** [x * y] on two floats *)
Definition float_mul (x y : float) : float :=
  let e := exponent x + exponent y in
  nearest_float (mantissa x * mantissa y * pow2 e) (pow2 (- e)).

(** [int(x)]: towards zero. *)
Definition int_of_float (x : float) : Z :=
  if 0 <=? exponent x then mantissa x * 2 ^ exponent x
  else Z.quot (mantissa x) (2 ^ (- exponent x)).

(** The literal [0.5] *)
Definition one_half : float := {| mantissa := 1; exponent := -1 |}.

(** A number is an int or a float; an int meeting a float is converted. *)
Inductive number : Type :=
| PyInt (z : Z)
| PyFloat (x : float).

(** [a * k] for an int [k] *)
Definition times_int (a : number) (k : Z) : number :=
  match a with
  | PyInt z => PyInt (z * k)
  | PyFloat x => PyFloat (float_mul x (float_of_int k))
  end.

(** [a * y] for a float [y] *)
Definition times_float (a : number) (y : float) : number :=
  match a with
  | PyInt z => PyFloat (float_mul (float_of_int z) y)
  | PyFloat x => PyFloat (float_mul x y)
  end.

(** [int(a)] *)
Definition py_int (a : number) : Z :=
  match a with
  | PyInt z => z
  | PyFloat x => int_of_float x
  end.

(** ** The event loop, seen from another thread *)

(** [asyncio.get_event_loop()] answers for the thread that calls it, and
    raises RuntimeError on a thread that has no current loop: any thread but
    the main one, unless a loop was set there. [run_coroutine_threadsafe]
    hands the coroutine [broadcast_message(message)] to a loop, which runs
    it later in the dispatch context; here it is told by its [message]. *)
Class EventLoop (R : Runtime) : Type := {
  loop : Type;
  get_event_loop : M world loop;
  run_coroutine_threadsafe : list (string * value) -> loop -> M world unit
}.

(** ** class GstreamerPipeline *)

(** One stage of a pipeline description: [{"type": ..., "properties": {...}}],
    the properties being optional. *)
Record element : Type := {
  el_type : string;
  el_properties : option (list (string * string))
}.

(** The stage as the JSON value the client sent. *)
Definition element_value (e : element) : value :=
  VDict (("type", VStr (el_type e)) ::
         match el_properties e with
         | Some props => [("properties", VDict (map (fun kv => (fst kv, VStr (snd kv))) props))]
         | None => []
         end).

(** A message the engine posts on a pipeline's bus. *)
Inductive GstMessage : Type :=
| MsgError (err_message : string) (debug : option string)
| MsgEOS
| MsgStateChanged (src : handle) (old_state new_state pending_state : GstState)
| MsgOther.

Module GstreamerPipeline.

Record t : Type := {
  id : string;
  description : string;
  elements : list element;
  pipeline : option handle;
  stats : list (string * value);
  error : option string;
  bus_watch_id : option Z
}.

(** [__init__] *)
Definition init (pipeline_id description : string) (elements : list element) : t :=
  {| id := pipeline_id; description := description; elements := elements;
     pipeline := None; stats := []; error := None; bus_watch_id := None |}.

Definition with_pipeline (p : option handle) (self : t) : t :=
  {| id := id self; description := description self; elements := elements self;
     pipeline := p; stats := stats self; error := error self;
     bus_watch_id := bus_watch_id self |}.

Definition with_stats (s : list (string * value)) (self : t) : t :=
  {| id := id self; description := description self; elements := elements self;
     pipeline := pipeline self; stats := s; error := error self;
     bus_watch_id := bus_watch_id self |}.

Definition with_error (e : option string) (self : t) : t :=
  {| id := id self; description := description self; elements := elements self;
     pipeline := pipeline self; stats := stats self; error := e;
     bus_watch_id := bus_watch_id self |}.

Definition with_bus_watch_id (w : option Z) (self : t) : t :=
  {| id := id self; description := description self; elements := elements self;
     pipeline := pipeline self; stats := stats self; error := error self;
     bus_watch_id := w |}.

(** [if self.bus_watch_id:] *)
Definition truthy_watch (w : option Z) : bool :=
  match w with
  | Some n => negb (n =? 0)
  | None => false
  end.

Definition element_string (e : element) : string :=
  fold_left (fun el_str kv => el_str ++ " " ++ fst kv ++ "=" ++ snd kv)
    (match el_properties e with Some props => props | None => [] end)
    (el_type e).

Definition build_pipeline_string (self : t) : string :=
  String.concat " ! " (map element_string (elements self)).

Definition state_name (s : GstState) : string :=
  match PIPELINE_STATES s with
  | Some name => name
  | None => "UNKNOWN"
  end.

Section Methods.
Context {R : Runtime}.

Definition creation_failed (self : t) (e : exn) : t * list (string * value) :=
  (with_error (Some (str_of_exn e)) self,
   [("id", VStr (id self));
    ("errorCode", VStr "creation-failed");
    ("errorMessage", VStr (str_of_exn e))]).

(** [create]: the [try] block falls into two parts, before and after
    [self.pipeline] is assigned. *)
Definition create (self : t) : M Globals (t * list (string * value)) :=
  let pipeline_string := build_pipeline_string self in
  let! launched := attempt (call (parse_launch pipeline_string)) in
  match launched with
  | Raise e => ret (creation_failed self e)
  | Return p =>
      let self := with_pipeline (Some p) self in
      let! watched :=
        attempt (call (set_name p (id self)) ;;
                 let! bus := call (get_bus p) in
                 call (add_watch bus)) in
      match watched with
      | Raise e => ret (creation_failed self e)
      | Return watch_id =>
          ret (with_bus_watch_id (Some watch_id) self,
               [("id", VStr (id self));
                ("description", VStr (description self));
                ("state", VStr "NULL");
                ("elements", VList (map element_value (elements self)))])
      end
  end.

Definition not_created (self : t) : list (string * value) :=
  [("id", VStr (id self));
   ("errorCode", VStr "not-created");
   ("errorMessage", VStr "Pipeline not created")].

Definition start (self : t) : M Globals (t * list (string * value)) :=
  match pipeline self with
  | None => ret (self, not_created self)
  | Some p =>
      let! r := call (set_state p PLAYING) in
      if StateChangeReturn_eqb r FAILURE then
        ret (self, [("id", VStr (id self));
                    ("errorCode", VStr "start-failed");
                    ("errorMessage", VStr "Failed to start pipeline")])
      else
        ret (self, [("id", VStr (id self));
                    ("state", VStr "PLAYING");
                    ("message", VStr "Pipeline started")])
  end.

Definition stop (self : t) : M Globals (t * list (string * value)) :=
  match pipeline self with
  | None => ret (self, not_created self)
  | Some p =>
      let! r := call (set_state p PAUSED) in
      if StateChangeReturn_eqb r FAILURE then
        ret (self, [("id", VStr (id self));
                    ("errorCode", VStr "stop-failed");
                    ("errorMessage", VStr "Failed to pause pipeline")])
      else
        ret (self, [("id", VStr (id self));
                    ("state", VStr "PAUSED");
                    ("message", VStr "Pipeline paused")])
  end.

Definition deleted (self : t) : list (string * value) :=
  [("id", VStr (id self)); ("message", VStr "Pipeline deleted")].

Definition delete (self : t) : M Globals (t * list (string * value)) :=
  match pipeline self with
  | Some p =>
      call (set_state p NULL) ;;
      let! self :=
        (if truthy_watch (bus_watch_id self) then
           let! bus := call (get_bus p) in
           call (remove_watch bus (default 0 (bus_watch_id self))) ;;
           ret (with_bus_watch_id None self)
         else ret self) in
      let self := with_pipeline None self in
      ret (self, deleted self)
  | None => ret (self, deleted self)
  end.

(** [Gst.SECOND] *)
Definition Gst_SECOND : Z := 1000000000.

(** The simulated telemetry, from [position]: the int [0], or the float
    [position_ns / Gst.SECOND]. *)
Definition simulated_stats (position : number) : list (string * value) :=
  [("bufferHealth", VInt 80);
   ("bitrate", VInt 2500000);
   ("framesReceived", VInt (100 + py_int (times_int position 30)));
   ("framesDropped", VInt (py_int (times_float position one_half)));
   ("latency", VInt 150)].

(** [get_status]. The engine reports [position_ns] as a 64-bit count of
    nanoseconds, [-1] when it does not know it. *)
Definition get_status (self : t) : M Globals (t * list (string * value)) :=
  match pipeline self with
  | None =>
      ret (self, [("id", VStr (id self)); ("state", VStr "NULL"); ("stats", VDict [])])
  | Some p =>
      let! state := call (get_state p) in
      let state_name := state_name state in
      let! (success, position_ns) := call (query_position p) in
      let position :=
        if (success : bool) then PyFloat (true_div position_ns Gst_SECOND)
        else PyInt 0 in
      let self := with_stats (simulated_stats position) self in
      ret (self, [("id", VStr (id self));
                  ("state", VStr state_name);
                  ("stats", VDict (stats self))])
  end.

Definition opt_str (s : option string) : value :=
  match s with
  | Some s => VStr s
  | None => VNone
  end.

(** The callback is a bound method that the engine's thread calls: it
    works on its object and on the globals, and what it assigned before an
    exception stays assigned. *)
Definition on_globals {A : Type} (m : M Globals A) : M (t * Globals) A :=
  fun s => let (r, g) := m (snd s) in (r, (fst s, g)).

Definition assign (f : t -> t) : M (t * Globals) unit :=
  fun s => (Return tt, (f (fst s), snd s)).

Context {L : EventLoop R}.

(** [asyncio.run_coroutine_threadsafe(broadcast_message(message),
    asyncio.get_event_loop())]. The arguments are evaluated in order: the
    call [broadcast_message(message)] makes the coroutine object and runs
    none of it; then the loop of the calling thread is looked up, which may
    raise; then the coroutine is handed to that loop. The future that comes
    back is dropped. *)
Definition schedule_broadcast (message : list (string * value)) : M (t * Globals) unit :=
  let! loop := on_globals (call get_event_loop) in
  on_globals (call (run_coroutine_threadsafe message loop)).

(** [bus_callback(self, bus, message)] *)
Definition bus_callback (message : GstMessage) : M (t * Globals) bool :=
  fun s =>
    let self := fst s in
    (match message with
     | MsgError err_message debug =>
         assign (with_error (Some err_message)) ;;
         schedule_broadcast
           [("type", VStr "pipelineError");
            ("payload", VDict [("id", VStr (id self));
                               ("errorCode", VStr "gst-error");
                               ("errorMessage", VStr err_message);
                               ("details", opt_str debug)])] ;;
         ret true
     | MsgEOS =>
         schedule_broadcast
           [("type", VStr "pipelineStateChanged");
            ("payload", VDict [("id", VStr (id self));
                               ("state", VStr "NULL");
                               ("message", VStr "End of stream")])] ;;
         ret true
     | MsgStateChanged src old_state new_state _ =>
         if bool_decide (Some src = pipeline self) then
           let old_state_name := state_name old_state in
           let new_state_name := state_name new_state in
           schedule_broadcast
             [("type", VStr "pipelineStateChanged");
              ("payload", VDict [("id", VStr (id self));
                                 ("state", VStr new_state_name);
                                 ("message", VStr ("State changed from " ++ old_state_name
                                                   ++ " to " ++ new_state_name))])] ;;
           ret true
         else ret true
     | MsgOther => ret true
     end) s.
End Methods.
End GstreamerPipeline.

(** ** The registry and the protocol handler *)

(** The payload of [createPipeline], every field optional as [payload.get]
    has it. *)
Record pipeline_def : Type := { def_elements : option (list element) }.

Record create_payload : Type := {
  cp_id : option string;
  cp_description : option string;
  cp_pipeline : option pipeline_def
}.

(** A parsed inbound message, by its ["type"]. *)
Inductive command : Type :=
| ping
| createPipeline (payload : create_payload)
| startPipeline (pipeline_id : option string)
| stopPipeline (pipeline_id : option string)
| deletePipeline (pipeline_id : option string)
| getPipelines
| other_type (message_type : option string).

Inductive incoming : Type :=
| invalid_json (text : string)
| parsed (c : command).

Section Server.
Context {R : Runtime}.

(** The module-level globals: the registry [pipelines] and the rest. *)
Record State : Type := {
  pipelines : list (string * GstreamerPipeline.t);
  globals : Globals
}.

(** A dict has each key once. *)
Definition unique_ids (st : State) : Prop := NoDup (map fst (pipelines st)).

Definition lift {A : Type} (m : M Globals A) : M State A :=
  fun st =>
    let (r, g) := m (globals st) in
    (r, {| pipelines := pipelines st; globals := g |}).

Definition update_pipelines
    (f : list (string * GstreamerPipeline.t) -> list (string * GstreamerPipeline.t))
  : M State unit :=
  fun st => (Return tt, {| pipelines := f (pipelines st); globals := globals st |}).

Definition update_clients (f : gset client -> gset client) : M State unit :=
  fun st =>
    (Return tt,
     {| pipelines := pipelines st;
        globals := {| clients := f (clients (globals st));
                      the_world := the_world (globals st);
                      trace := trace (globals st) |} |}).

(** [pipelines[pipeline_id].method()]: the registered object runs the
    method and stays registered, as mutated. The methods that can raise
    ([start], [stop], [delete], [get_status]) assign to [self] only after
    their last call into the engine, so after an exception the registered
    object is the one from before. *)
Definition invoke {A : Type} (pipeline_id : string)
    (method : GstreamerPipeline.t -> M Globals (GstreamerPipeline.t * A)) : M State A :=
  fun st =>
    match py_get pipeline_id (pipelines st) with
    | None => (Raise (Error "KeyError"), st)
    | Some self =>
        match method self (globals st) with
        | (Return (self', a), g) =>
            (Return a, {| pipelines := py_set pipeline_id self' (pipelines st);
                          globals := g |})
        | (Raise e, g) => (Raise e, {| pipelines := pipelines st; globals := g |})
        end
    end.

(** [v == s] for a looked-up value and a string literal. *)
Definition is_str (v : option value) (s : string) : bool :=
  match v with
  | Some (VStr s') => String.eqb s' s
  | _ => false
  end.

(** The body of the [for] loop of [send_stats_updates]. The object that
    [pipelines.items()] lists with an id is the one registered under it. *)
Definition stats_update (item : string * GstreamerPipeline.t) : M State unit :=
  let pipeline_id := fst item in
  let! status := invoke pipeline_id GstreamerPipeline.get_status in
  if is_str (py_get "state" status) "PLAYING" then
    lift (broadcast_message
            [("type", VStr "pipelineStats");
             ("payload", VDict [("id", VStr pipeline_id);
                                ("stats", default VNone (py_get "stats" status))])]) ;;
    ret tt
  else ret tt.


(** One turn of the [while True] loop: the [try] block and its handler. *)
Definition stats_iteration : M State unit :=
  try_except
    (fun st => (for_each (pipelines st) stats_update ;; lift (emit (Slept 1))) st)
    (fun _ => lift (emit (Slept 5))).

(** [send_stats_updates], for [fuel] turns of its loop. The loop has no
    exit: [Return] means it is still running, [Raise] that an exception
    ended it. *)
Fixpoint send_stats_updates (fuel : nat) : M State unit :=
  match fuel with
  | O => ret tt
  | S fuel' => stats_iteration ;; send_stats_updates fuel'
  end.





(** [{"type": ..., "payload": ..., "timestamp": ...}] *)
Definition envelope (type : string) (payload : value) (timestamp : Z) : value :=
  VDict [("type", VStr type); ("payload", payload); ("timestamp", VInt timestamp)].

(** [await websocket.send(json.dumps({"type": ..., "payload": ...,
    "timestamp": ...}))] *)
Definition reply (websocket : client) (type : string) (payload : value) : M Globals unit :=
  let! now := now_ms in
  send websocket (envelope type payload now).

(** [not pipeline_id] *)
Definition falsy (pipeline_id : option string) : bool :=
  match pipeline_id with
  | None => true
  | Some s => String.eqb s ""
  end.

(** [not pipeline_id or pipeline_id not in pipelines] *)
Definition unknown (pipeline_id : option string) (st : State) : bool :=
  falsy pipeline_id || negb (py_contains (default "" pipeline_id) (pipelines st)).

Definition not_found (websocket : client) (pipeline_id : option string) : M Globals unit :=
  reply websocket "pipelineError"
    (VDict [("id", GstreamerPipeline.opt_str pipeline_id);
            ("errorCode", VStr "not-found");
            ("errorMessage", VStr "Pipeline not found")]).

(** [[pipeline.get_status() for pipeline in pipelines.values()]] *)
Fixpoint statuses (ids : list string) : M State (list value) :=
  match ids with
  | [] => ret []
  | pipeline_id :: ids' =>
      let! status := invoke pipeline_id GstreamerPipeline.get_status in
      let! rest := statuses ids' in
      ret (VDict status :: rest)
  end.

Definition pipelines_list (websocket : client) : M State unit :=
  fun st =>
    (let! pipelines_list := statuses (map fst (pipelines st)) in
     lift (reply websocket "pipelinesList" (VDict [("pipelines", VList pipelines_list)]))) st.

(** [startPipeline] and [stopPipeline] share their shape. *)
Definition transition (websocket : client) (pipeline_id : option string)
    (method : GstreamerPipeline.t -> M Globals (GstreamerPipeline.t * list (string * value)))
  : M State unit :=
  fun st =>
    if unknown pipeline_id st then lift (not_found websocket pipeline_id) st
    else
      (let! result := invoke (default "" pipeline_id) method in
       if py_contains "errorCode" result then
         lift (reply websocket "pipelineError" (VDict result))
       else
         lift (reply websocket "pipelineStateChanged" (VDict result))) st.

(** [payload.get('pipeline', {}).get('elements', [])] *)
Definition elements_of (payload : create_payload) : list element :=
  let pipeline_def := default {| def_elements := None |} (cp_pipeline payload) in
  default [] (def_elements pipeline_def).

(** The branches of the receive loop of [handle_websocket]. *)
Definition dispatch (websocket : client) (c : command) : M State unit :=
  match c with
  | ping =>
      lift (let! now := now_ms in
            send websocket (VDict [("type", VStr "pong"); ("timestamp", VInt now)]))
  | createPipeline payload =>
      let! now := lift (now_ms) in
      let pipeline_id := default ("pipeline-" ++ str_of_int now) (cp_id payload) in
      let description := default ("Pipeline " ++ pipeline_id) (cp_description payload) in
      let elements := elements_of payload in
      match elements with
      | [] =>
          lift (reply websocket "pipelineError"
                  (VDict [("id", VStr pipeline_id);
                          ("errorCode", VStr "invalid-pipeline");
                          ("errorMessage", VStr "No pipeline elements provided")]))
      | _ :: _ =>
          let pipeline := GstreamerPipeline.init pipeline_id description elements in
          let! (pipeline, result) := lift (GstreamerPipeline.create pipeline) in
          if py_contains "errorCode" result then
            lift (reply websocket "pipelineError" (VDict result))
          else
            update_pipelines (py_set pipeline_id pipeline) ;;
            lift (reply websocket "pipelineCreated" (VDict [("pipeline", VDict result)]))
      end
  | startPipeline pipeline_id =>
      transition websocket pipeline_id GstreamerPipeline.start
  | stopPipeline pipeline_id =>
      transition websocket pipeline_id GstreamerPipeline.stop
  | deletePipeline pipeline_id =>
      fun st =>
        if unknown pipeline_id st then lift (not_found websocket pipeline_id) st
        else
          (let! result := invoke (default "" pipeline_id) GstreamerPipeline.delete in
           update_pipelines (py_del (default "" pipeline_id)) ;;
           lift (reply websocket "pipelineDeleted" (VDict result))) st
  | getPipelines => pipelines_list websocket
  | other_type _ => ret tt
  end.

(** One round of the receive loop: both [except] clauses only log. *)
Definition handle_message (websocket : client) (message : incoming) : M State unit :=
  match message with
  | invalid_json _ => ret tt
  | parsed c => try_except (dispatch websocket c) (fun _ => ret tt)
  end.

(** [handle_websocket] for a connection that delivers [messages] and then
    ends, cleanly or with the exception [closed]. *)
Definition handle_websocket (websocket : client) (messages : list incoming)
    (closed : option exn) : M State unit :=
  update_clients (fun cs => {[websocket]} ∪ cs) ;;
  fun st =>
    let (r, st') :=
      (pipelines_list websocket ;;
       for_each messages (handle_message websocket) ;;
       match closed with
       | Some e => raise e
       | None => ret tt
       end) st in
    let (_, st'') := update_clients (fun cs => cs ∖ {[websocket]}) st' in
    match r with
    | Raise (ConnectionClosed _) => (Return tt, st'')
    | _ => (r, st'')
    end.
End Server.

(** ** A small runtime to run the server on *)

(** An engine that numbers its pipelines, rejects the empty description and
    the transitions of the handles in [stuck], loses the handles in [lost],
    and a transport on which the clients in [broken] are gone. *)
Module Toy.
Record world : Type := {
  next_handle : nat;
  states : list (nat * GstState);
  watches : list nat;
  stuck : list nat;
  lost : list nat;
  broken : list nat;
  clock : Z
}.

Definition mem (n : nat) (l : list nat) : bool := existsb (Nat.eqb n) l.

Definition parse_launch (s : string) : M world handle :=
  fun w =>
    if String.eqb s "" then (Raise (Error "empty pipeline not allowed"), w)
    else
      (Return (next_handle w),
       {| next_handle := S (next_handle w); states := states w; watches := watches w;
          stuck := stuck w; lost := lost w; broken := broken w; clock := clock w |}).

Definition set_name (p : handle) (name : string) : M world unit := ret tt.

Definition get_bus (p : handle) : M world bus := ret p.

Definition add_watch (b : bus) : M world Z :=
  fun w =>
    (Return (Z.of_nat (S b)),
     {| next_handle := next_handle w; states := states w; watches := b :: watches w;
        stuck := stuck w; lost := lost w; broken := broken w; clock := clock w |}).

Definition remove_watch (b : bus) (watch_id : Z) : M world unit :=
  fun w =>
    (Return tt,
     {| next_handle := next_handle w; states := states w;
        watches := filter (fun b' => negb (Nat.eqb b b')) (watches w);
        stuck := stuck w; lost := lost w; broken := broken w; clock := clock w |}).

Definition set_state (p : handle) (s : GstState) : M world StateChangeReturn :=
  fun w =>
    if mem p (stuck w) then (Return FAILURE, w)
    else
      (Return SUCCESS,
       {| next_handle := next_handle w; states := (p, s) :: states w; watches := watches w;
          stuck := stuck w; lost := lost w; broken := broken w; clock := clock w |}).

Fixpoint state_of (p : handle) (l : list (nat * GstState)) : GstState :=
  match l with
  | [] => NULL
  | (p', s) :: l' => if Nat.eqb p p' then s else state_of p l'
  end.

Definition get_state (p : handle) : M world GstState :=
  fun w =>
    if mem p (lost w) then (Raise (Error "pipeline is gone"), w)
    else (Return (state_of p (states w)), w).

Definition query_position (p : handle) : M world (bool * Z) :=
  fun w => (Return (true, 2000000000 * clock w), w).

Definition loop_time_ms (w : world) : Z * world :=
  (clock w,
   {| next_handle := next_handle w; states := states w; watches := watches w;
      stuck := stuck w; lost := lost w; broken := broken w; clock := clock w + 1 |}).

Definition ws_send (c : client) (m : value) : M world unit :=
  fun w =>
    if mem c (broken w) then (Raise (ConnectionClosed "no close frame received or sent"), w)
    else (Return tt, w).

Definition runtime : Runtime :=
  Build_Runtime world parse_launch set_name get_bus add_watch remove_watch
    set_state get_state query_position loop_time_ms ws_send.

Definition fresh : world :=
  {| next_handle := 0; states := []; watches := []; stuck := []; lost := [];
     broken := []; clock := 1000 |}.

(** A server with the given clients connected and nothing registered. *)
Definition server (cs : list client) (w : world) : @State runtime :=
  @Build_State runtime []
    (@Build_Globals runtime (list_to_set cs) w []).

Definition videotestsrc : element := {| el_type := "videotestsrc"; el_properties := None |}.

Definition create_p1 : incoming :=
  parsed (createPipeline
            {| cp_id := Some "p1"; cp_description := None;
               cp_pipeline := Some {| def_elements := Some [videotestsrc] |} |}).

(** The server after [messages] from client 1. *)
Definition after (messages : list incoming) (st : @State runtime) : @State runtime :=
  snd (for_each messages (handle_message 1%nat) st).

Definition delete_p1 : incoming := parsed (deletePipeline (Some "p1")).

(** Two clients; then ["p1"] registered; then started. *)
Definition two_clients : @State runtime := server [1%nat; 2%nat] fresh.
Definition with_p1 : @State runtime := after [create_p1] two_clients.
Definition p1_playing : @State runtime :=
  after [parsed (startPipeline (Some "p1"))] with_p1.

(** The same two clients, the first with a dead connection. *)
Definition first_broken : @State runtime :=
  server [1%nat; 2%nat]
    {| next_handle := 0; states := []; watches := []; stuck := []; lost := [];
       broken := [1%nat]; clock := 1000 |}.

(** The handle that [with_p1] has under ["p1"]. *)
Definition p1 : GstreamerPipeline.t :=
  {| GstreamerPipeline.id := "p1";
     GstreamerPipeline.description := "Pipeline p1";
     GstreamerPipeline.elements := [videotestsrc];
     GstreamerPipeline.pipeline := Some 0%nat;
     GstreamerPipeline.stats := [];
     GstreamerPipeline.error := None;
     GstreamerPipeline.bus_watch_id := Some 1 |}.

(** ["p1"] registered, its engine pipeline lost: polling it raises. *)
Definition p1_lost : @State runtime :=
  @Build_State runtime [("p1", p1)]
    (@Build_Globals runtime (list_to_set [1%nat; 2%nat])
       {| next_handle := 1; states := [(0%nat, PLAYING)]; watches := [0%nat]; stuck := [];
          lost := [0%nat]; broken := []; clock := 1000 |} []).

(** A handle whose engine pipeline refuses every transition. *)
Definition stuck_world : world :=
  {| next_handle := 1; states := []; watches := [0%nat]; stuck := [0%nat]; lost := [];
     broken := []; clock := 1000 |}.
End Toy.

(** ** The rest of the module *)

(** [path_filter]: [None] lets the handshake go on, anything else is the
    response [(status, headers, body)] that refuses it. [environ] is
    [os.environ]; the body, bytes in the source, is kept as text. *)
Definition path_filter (environ : list (string * string)) (path : string)
  : option (Z * list (string * string) * string) :=
  let ws_path := default "/gstreamer" (py_get "GSTREAMER_WS_PATH" environ) in
  if String.eqb path ws_path || (String.eqb ws_path "/" && String.eqb path "") then None
  else Some (404, [("Content-Type", "text/plain")],
             "Not Found - WebSocket endpoint is at " ++ ws_path).

Section Registry.
Context {R : Runtime}.

(** A handle with its engine pipeline, under its own id. *)
Definition sound (kv : string * GstreamerPipeline.t) : Prop :=
  GstreamerPipeline.id (snd kv) = fst kv /\
  GstreamerPipeline.pipeline (snd kv) <> None.

(** Every handle sits in the registry under its own id. *)
Definition registered_under_own_id (st : State) : Prop :=
  Forall (fun kv => GstreamerPipeline.id (snd kv) = fst kv) (pipelines st).

(** Every handle in the registry has its engine pipeline. *)
Definition registered_with_pipeline (st : State) : Prop :=
  Forall (fun kv => GstreamerPipeline.pipeline (snd kv) <> None) (pipelines st).

(** [await websocket.send(json.dumps(m))] shows in a trace as a send to
    [websocket]. *)
Definition sent_to (websocket : client) (ev : event) : Prop :=
  exists m r, ev = Sent websocket m r.

(** A computation that leaves the clients and the trace alone. *)
Definition quiet {A : Type} (m : M State A) : Prop :=
  forall st,
    clients (globals (snd (m st))) = clients (globals st) /\
    trace (globals (snd (m st))) = trace (globals st).

(** A computation that leaves the clients alone and adds to the trace
    nothing, or one send to [websocket]. *)
Definition answers {A : Type} (websocket : client) (m : M State A) : Prop :=
  forall st,
    clients (globals (snd (m st))) = clients (globals st) /\
    exists new,
      trace (globals (snd (m st))) = (trace (globals st) ++ new)%list /\
      (new = [] \/ exists msg r, new = [Sent websocket msg r]).

(** A computation that leaves the clients alone and adds to the trace
    only sends to [websocket]. *)
Definition speaks_to {A : Type} (websocket : client) (m : M State A) : Prop :=
  forall st,
    clients (globals (snd (m st))) = clients (globals st) /\
    exists new,
      trace (globals (snd (m st))) = (trace (globals st) ++ new)%list /\
      Forall (sent_to websocket) new.
End Registry.

Section Shutdown.
Context {R : Runtime}.

(** What [shutdown] calls besides the [Runtime]: the GLib main loop
    ([mainloop and mainloop.is_running()], [mainloop.quit()]), the closing of
    a connection and [loop.stop()]. *)
Variable mainloop_is_running : M world bool.
Variable mainloop_quit : M world unit.
Variable ws_close : client -> M world unit.
Variable loop_stop : M world unit.

(** The body of the [for] loop of [shutdown]. *)
Definition shutdown_pipeline (item : string * GstreamerPipeline.t) : M State unit :=
  let pipeline_id := fst item in
  invoke pipeline_id GstreamerPipeline.delete ;;
  update_pipelines (py_del pipeline_id).

(** [shutdown]. The loop runs over [list(pipelines.items())], the registry
    as it was when the loop began. *)
Definition shutdown : M State unit :=
  fun st =>
    (for_each (pipelines st) shutdown_pipeline ;;
     let! running := lift (call mainloop_is_running) in
     (if (running : bool) then lift (call mainloop_quit) else ret tt) ;;
     (fun st' =>
        if bool_decide (clients (globals st') = ∅) then (Return tt, st')
        else
          (lift (gather (map (fun c => attempt (call (ws_close c)))
                           (elements (clients (globals st')))) false) ;;
           ret tt) st') ;;
     lift (call loop_stop)) st.
End Shutdown.

(** ** A runtime whose engine can raise *)

(** The small runtime, except that a transition of a handle in [lost]
    raises. *)
Module Faulty.
Definition set_state (p : handle) (s : GstState) : M Toy.world StateChangeReturn :=
  fun w =>
    if Toy.mem p (Toy.lost w) then (Raise (Error "pipeline is gone"), w)
    else Toy.set_state p s w.

Definition runtime : Runtime :=
  Build_Runtime Toy.world Toy.parse_launch Toy.set_name Toy.get_bus Toy.add_watch
    Toy.remove_watch set_state Toy.get_state Toy.query_position Toy.loop_time_ms
    Toy.ws_send.

(** ["p1"] registered, its engine pipeline lost; clients 1 and 2. *)
Definition p1_lost : @State runtime :=
  @Build_State runtime [("p1", Toy.p1)]
    (@Build_Globals runtime (list_to_set [1%nat; 2%nat])
       {| Toy.next_handle := 1; Toy.states := []; Toy.watches := [0%nat]; Toy.stuck := [];
          Toy.lost := [0%nat]; Toy.broken := []; Toy.clock := 1000 |} []).
End Faulty.

(** More runs of the small runtime. *)
Module Runs.
(** A second stage description, with properties. *)
Definition udpsink : element :=
  {| el_type := "udpsink"; el_properties := Some [("host", "10.0.0.7"); ("port", "5000")] |}.

Definition create_with (pipeline_id : option string) : incoming :=
  parsed (createPipeline
            {| cp_id := pipeline_id; cp_description := None;
               cp_pipeline := Some {| def_elements := Some [Toy.videotestsrc; udpsink] |} |}).

(** ["p1"] registered, then a pipeline created with the empty id. *)
Definition with_empty_id : @State Toy.runtime :=
  Toy.after [create_with (Some "")] Toy.with_p1.

(** ["p1"] registered on an engine that refuses its transitions. *)
Definition p1_stuck : @State Toy.runtime :=
  @Build_State Toy.runtime [("p1", Toy.p1)]
    (@Build_Globals Toy.runtime (list_to_set [1%nat; 2%nat]) Toy.stuck_world []).

(** The calls of [shutdown] on the small runtime. *)
Definition mainloop_is_running : M Toy.world bool := ret true.
Definition mainloop_quit : M Toy.world unit := ret tt.
Definition ws_close (c : client) : M Toy.world unit := ret tt.
Definition loop_stop : M Toy.world unit := ret tt.
End Runs.

(** ** Threads and their event loops *)

(** The thread that [main] starts for [mainloop.run()] is where the engine
    calls the bus callbacks. No event loop is set on it, so
    [asyncio.get_event_loop()] raises there. *)
Module GLibThread.
Definition get_event_loop : M Toy.world nat :=
  raise (Error "There is no current event loop in thread 'Thread-1'.").

Definition run_coroutine_threadsafe (message : list (string * value)) (l : nat)
  : M Toy.world unit := ret tt.

Definition event_loop : EventLoop Toy.runtime :=
  Build_EventLoop Toy.runtime nat get_event_loop run_coroutine_threadsafe.
End GLibThread.

(** The small runtime on a thread that has a loop: the world also holds
    what was handed to that loop, oldest first. *)
Module LoopThread.
Definition world : Type := Toy.world * list (list (string * value)).

Definition engine {A : Type} (m : M Toy.world A) : M world A :=
  fun w => let (r, w') := m (fst w) in (r, (w', snd w)).

Definition loop_time_ms (w : world) : Z * world :=
  let (t, w') := Toy.loop_time_ms (fst w) in (t, (w', snd w)).

Definition runtime : Runtime :=
  Build_Runtime world
    (fun s => engine (Toy.parse_launch s))
    (fun p name => engine (Toy.set_name p name))
    (fun p => engine (Toy.get_bus p))
    (fun b => engine (Toy.add_watch b))
    (fun b watch_id => engine (Toy.remove_watch b watch_id))
    (fun p s => engine (Toy.set_state p s))
    (fun p => engine (Toy.get_state p))
    (fun p => engine (Toy.query_position p))
    loop_time_ms
    (fun c m => engine (Toy.ws_send c m)).

Definition get_event_loop : M world nat := ret 0%nat.

Definition run_coroutine_threadsafe (message : list (string * value)) (l : nat)
  : M world unit :=
  fun w => (Return tt, (fst w, (snd w ++ [message])%list)).

Definition event_loop : EventLoop runtime :=
  Build_EventLoop runtime nat get_event_loop run_coroutine_threadsafe.

(** Clients 1 and 2 connected, nothing handed to the loop yet; then
    ["p1"] registered. *)
Definition two_clients : @State runtime :=
  @Build_State runtime []
    (@Build_Globals runtime (list_to_set [1%nat; 2%nat]) (Toy.fresh, []) []).

Definition with_p1 : @State runtime :=
  snd (@handle_message runtime 1%nat Toy.create_p1 two_clients).
End LoopThread.

(** Two pipelines registered and playing, the engine pipeline of the first
    one lost: polling ["p1"] raises, polling ["p2"] does not. *)
Module TwoPipelines.


End TwoPipelines.

(** * Properties *)

Ltac unfold_monad :=
  unfold bind, ret, raise, try_except, attempt in *.

(** ** Python dicts *)

Section PyDictFacts.
Context {V : Type}.
Implicit Types (d : list (string * V)) (k : string) (v : V).

Lemma py_contains_get k d : py_contains k d = true <-> exists v, py_get k d = Some v.
Proof.
  induction d as [|[k' v'] d IH]; simpl.
  - split; [discriminate | intros [v Hv]; discriminate].
  - destruct (String.eqb k k'); [split; eauto | exact IH].
Qed.

Lemma py_contains_false_get k d : py_contains k d = false <-> py_get k d = None.
Proof.
  induction d as [|[k' v'] d IH]; simpl; [done|].
  destruct (String.eqb k k'); [split; discriminate | exact IH].
Qed.

Lemma py_get_set_eq k v d : py_get k (py_set k v d) = Some v.
Proof.
  induction d as [|[k' v'] d IH]; simpl.
  - by rewrite String.eqb_refl.
  - destruct (String.eqb k k') eqn:E; simpl; rewrite E; [done | exact IH].
Qed.

Lemma py_get_set_ne k k' v d : k <> k' -> py_get k' (py_set k v d) = py_get k' d.
Proof.
  intros Hne. induction d as [|[k0 v0] d IH]; simpl.
  - destruct (String.eqb k' k) eqn:E; [|done].
    apply String.eqb_eq in E. congruence.
  - destruct (String.eqb k k0) eqn:E; simpl.
    + apply String.eqb_eq in E. subst k0.
      destruct (String.eqb k' k) eqn:E'; [|done].
      apply String.eqb_eq in E'. congruence.
    + by rewrite IH.
Qed.

(** Assigning to a key that is present replaces its value where it stands:
    no key is added, removed or moved. *)
Lemma py_set_keys k v d :
  py_contains k d = true -> map fst (py_set k v d) = map fst d.
Proof.
  induction d as [|[k' v'] d IH]; simpl; [discriminate|].
  destruct (String.eqb k k') eqn:E; simpl; [done|].
  intros H. by rewrite IH.
Qed.

Lemma py_contains_keys k d : py_contains k d = true <-> k ∈ map fst d.
Proof.
  induction d as [|[k' v'] d IH]; simpl.
  - split; [discriminate | by intros ?%elem_of_nil].
  - rewrite elem_of_cons. destruct (String.eqb k k') eqn:E.
    + apply String.eqb_eq in E. tauto.
    + apply String.eqb_neq in E. rewrite IH. tauto.
Qed.

Lemma py_set_NoDup k v d : NoDup (map fst d) -> NoDup (map fst (py_set k v d)).
Proof.
  induction d as [|[k' v'] d IH]; simpl.
  - intros _. apply NoDup_singleton.
  - intros [Hnotin Hnd]%NoDup_cons.
    destruct (String.eqb k k') eqn:E; simpl.
    + by apply NoDup_cons.
    + apply NoDup_cons. split; [|by apply IH].
      apply String.eqb_neq in E.
      destruct (py_contains k d) eqn:Hc.
      * by rewrite py_set_keys.
      * intros Hin. apply py_contains_keys in Hin.
        apply py_contains_get in Hin as [v0 Hv0].
        rewrite py_get_set_ne in Hv0 by done.
        apply Hnotin, py_contains_keys, py_contains_get. eauto.
Qed.

(** Deleting a key from a dict leaves a dict without it. *)
Lemma py_del_contains k d :
  NoDup (map fst d) -> py_contains k (py_del k d) = false.
Proof.
  induction d as [|[k' v'] d IH]; simpl; [done|].
  intros [Hnotin Hnd]%NoDup_cons.
  destruct (String.eqb k k') eqn:E; simpl.
  - apply String.eqb_eq in E. subst k'.
    destruct (py_contains k d) eqn:Hc; [|done].
    by apply py_contains_keys in Hc.
  - rewrite E. by apply IH.
Qed.
End PyDictFacts.

(** ** The fan-out *)

Section BroadcastFacts.
Context {R : Runtime}.

(** Calls into the runtime and the clock leave [clients] and [trace] alone. *)
Lemma call_frame {A : Type} (m : M world A) (g : Globals) :
  clients (snd (call m g)) = clients g /\ trace (snd (call m g)) = trace g /\
  call m g = (fst (m (the_world g)), snd (call m g)) /\
  the_world (snd (call m g)) = snd (m (the_world g)).
Proof. unfold call. by destruct (m (the_world g)). Qed.

(** The sends of one message to a list of clients: all of them run, each
    leaves its event, none raises into the loop that gathers them. *)
Lemma run_all_sends (m : value) (cs : list client) (g : Globals) :
  exists rs g' sends,
    run_all (map (fun c => send_to c m) cs) g = (Return rs, g') /\
    clients g' = clients g /\
    trace g' = (trace g ++ sends)%list /\
    Forall2 (fun c ev => exists r, ev = Sent c m r) cs sends.
Proof.
  revert g. induction cs as [|c cs IH]; intros g; simpl.
  - exists [], g, []. unfold_monad. by rewrite app_nil_r.
  - unfold_monad. unfold send_to at 1.
    destruct (ws_send c m (the_world g)) as [r w] eqn:Hsend.
    edestruct IH as (rs & g' & sends & Hrun & Hcl & Htr & Hall).
    rewrite Hrun. exists (r :: rs), g', (Sent c m r :: sends).
    split; [done|]. split; [by rewrite Hcl|].
    split; [by rewrite Htr; simpl; rewrite <- app_assoc|].
    constructor; eauto.
Qed.

Lemma broadcast_message_empty (message : list (string * value)) (g : Globals) :
  clients g = ∅ -> broadcast_message message g = (Return message, g).
Proof. intros H. unfold broadcast_message. by rewrite bool_decide_eq_true_2. Qed.

Lemma broadcast_message_connected (message : list (string * value)) (g : Globals) :
  clients g <> ∅ ->
  exists g' sends,
    broadcast_message message g =
      (Return (py_set "timestamp" (VInt (fst (loop_time_ms (the_world g)))) message), g') /\
    clients g' = clients g /\
    trace g' = (trace g ++ sends)%list /\
    Forall2
      (fun c ev => exists r,
         ev = Sent c (VDict (py_set "timestamp"
                               (VInt (fst (loop_time_ms (the_world g)))) message)) r)
      (elements (clients g)) sends.
Proof.
  intros H. unfold broadcast_message. rewrite bool_decide_eq_false_2 by done.
  unfold gather, now_ms. unfold_monad.
  destruct (loop_time_ms (the_world g)) as [t w]. simpl.
  edestruct (run_all_sends (VDict (py_set "timestamp" (VInt t) message))
               (elements (clients g)))
    as (rs & g' & sends & Hrun & Hcl & Htr & Hall).
  rewrite Hrun. exists g', sends. repeat split; try done.
Qed.

Lemma sends_reach_all (m : value) (cs : list client) (sends : list event) :
  Forall2 (fun c ev => exists r, ev = Sent c m r) cs sends ->
  Forall (fun ev => exists c r, c ∈ cs /\ ev = Sent c m r) sends /\
  forall c, c ∈ cs -> exists r, Sent c m r ∈ sends.
Proof.
  induction 1 as [|c ev cs evs [r ->] _ [IHall IHin]].
  - split; [constructor | by intros c ?%elem_of_nil].
  - split.
    + constructor.
      * exists c, r. split; [by apply elem_of_cons; left | done].
      * eapply Forall_impl; [exact IHall|].
        intros ev (c' & r' & Hc' & ->). exists c', r'.
        split; [by apply elem_of_cons; right | done].
    + intros c' [->|Hc']%elem_of_cons.
      * exists r. apply elem_of_cons. by left.
      * destruct (IHin c' Hc') as [r' Hr']. exists r'. apply elem_of_cons. by right.
Qed.

(** The same, by membership in the set of clients. *)
Lemma broadcast_message_reaches_all (message : list (string * value)) (g : Globals) :
  clients g <> ∅ ->
  exists g' sends,
    let message' := py_set "timestamp" (VInt (fst (loop_time_ms (the_world g)))) message in
    broadcast_message message g = (Return message', g') /\
    clients g' = clients g /\
    trace g' = (trace g ++ sends)%list /\
    Forall (fun ev => exists c r, c ∈ clients g /\ ev = Sent c (VDict message') r) sends /\
    forall c, c ∈ clients g -> exists r, Sent c (VDict message') r ∈ sends.
Proof.
  intros Hne.
  destruct (broadcast_message_connected message g Hne)
    as (g' & sends & Hb & Hcl & Htr & Hall).
  apply sends_reach_all in Hall as [Hall Hin].
  exists g', sends. cbn zeta. repeat split; try done.
  - eapply Forall_impl; [exact Hall|].
    intros ev (c & r & Hc & ->). exists c, r. by rewrite <- elem_of_elements.
  - intros c Hc. apply Hin. by apply elem_of_elements.
Qed.

(** Whatever the clients, [broadcast_message] returns and only adds sends
    to the trace. *)
Lemma broadcast_message_returns (message : list (string * value)) (g : Globals) :
  exists message' g' sends,
    broadcast_message message g = (Return message', g') /\
    clients g' = clients g /\
    trace g' = (trace g ++ sends)%list /\
    Forall (fun ev => exists c m r, ev = Sent c m r) sends.
Proof.
  destruct (decide (clients g = ∅)) as [He|Hne].
  - exists message, g, []. rewrite broadcast_message_empty by done.
    by rewrite app_nil_r.
  - destruct (broadcast_message_connected message g Hne)
      as (g' & sends & Hb & Hcl & Htr & Hall).
    eexists _, g', sends. repeat split; try done.
    clear -Hall. induction Hall as [|c ev cs evs [r ->] _ IH]; constructor; eauto.
Qed.


(** C10: with no client connected [broadcast_message] does nothing at
    all: no send, no clock read, and the message comes back as it was
    passed, so without a timestamp it had not; with a client connected the
    message comes back carrying the clock's milliseconds as its timestamp. *)
Theorem C10_broadcast_without_clients_is_noop
    (message : list (string * value)) (g : Globals) :
  (clients g = ∅ -> broadcast_message message g = (Return message, g)) /\
  (clients g <> ∅ ->
   exists g',
     broadcast_message message g =
       (Return (py_set "timestamp" (VInt (fst (loop_time_ms (the_world g)))) message), g') /\
     py_get "timestamp" (py_set "timestamp" (VInt (fst (loop_time_ms (the_world g)))) message)
       = Some (VInt (fst (loop_time_ms (the_world g))))).
Proof.
  split.
  - apply broadcast_message_empty.
  - intros Hne.
    destruct (broadcast_message_connected message g Hne) as (g' & sends & Hb & _).
    exists g'. split; [done | apply py_get_set_eq].
Qed.
End BroadcastFacts.

(** ** The pipeline handle *)

Section HandleFacts.
Context {R : Runtime}.
Import GstreamerPipeline.

(** C2: [create] always returns, and when what it returns is not an error
    its snapshot reports state NULL and the engine calls have all been
    made by then, in the order launch, name, bus, watch: the world that
    [create] leaves behind is the one in which [add_watch] has installed
    the watch whose id the handle now holds. *)
Theorem C2_create_success_is_null_and_subscribed (self : t) (g : Globals) :
  exists self' result g',
    create self g = (Return (self', result), g') /\
    (py_contains "errorCode" result = false ->
     py_get "state" result = Some (VStr "NULL") /\
     exists p b watch_id w1 w2 w3,
       parse_launch (build_pipeline_string self) (the_world g) = (Return p, w1) /\
       set_name p (id self) w1 = (Return tt, w2) /\
       get_bus p w2 = (Return b, w3) /\
       add_watch b w3 = (Return watch_id, the_world g') /\
       pipeline self' = Some p /\
       bus_watch_id self' = Some watch_id).
Proof.
  unfold create, call. unfold_monad. simpl.
  destruct (parse_launch (build_pipeline_string self) (the_world g))
    as [[p|e] w1] eqn:Hlaunch; simpl.
  2: { eexists _, _, _. split; [reflexivity|]. simpl. discriminate. }
  destruct (set_name p (id self) w1) as [[[]|e] w2] eqn:Hname; simpl.
  2: { eexists _, _, _. split; [reflexivity|]. simpl. discriminate. }
  destruct (get_bus p w2) as [[b|e] w3] eqn:Hbus; simpl.
  2: { eexists _, _, _. split; [reflexivity|]. simpl. discriminate. }
  destruct (add_watch b w3) as [[watch_id|e] w4] eqn:Hwatch; simpl.
  2: { eexists _, _, _. split; [reflexivity|]. simpl. discriminate. }
  eexists _, _, _. split; [reflexivity|]. intros _. split; [reflexivity|].
  exists p, b, watch_id, w1, w2, w3. simpl. done.
Qed.

(** [create] touches neither the clients nor the trace. *)
Lemma create_frame (self : t) (g : Globals) :
  clients (snd (create self g)) = clients g /\
  trace (snd (create self g)) = trace g.
Proof.
  unfold create, call. unfold_monad. simpl.
  destruct (parse_launch _ _) as [[p|e] w1]; simpl; [|done].
  destruct (set_name _ _ _) as [[[]|e] w2]; simpl; [|done].
  destruct (get_bus _ _) as [[b|e] w3]; simpl; [|done].
  by destruct (add_watch _ _) as [[watch_id|e] w4].
Qed.

(** C9: [stop] on a handle without an engine pipeline fails with
    [not-created] and calls nothing; on a handle with one, its only engine
    call is the request for PAUSED; when the engine answers FAILURE the
    result is the error [stop-failed], and on any other answer it is a
    snapshot in state PAUSED. *)
Theorem C9_stop_requests_paused (self : t) (g : Globals) :
  (pipeline self = None ->
   exists result,
     stop self g = (Return (self, result), g) /\
     py_get "errorCode" result = Some (VStr "not-created")) /\
  (forall p, pipeline self = Some p ->
     the_world (snd (stop self g)) = snd (set_state p PAUSED (the_world g)) /\
     (forall w', set_state p PAUSED (the_world g) = (Return FAILURE, w') ->
        exists result,
          fst (stop self g) = Return (self, result) /\
          py_get "errorCode" result = Some (VStr "stop-failed")) /\
     (forall r w', set_state p PAUSED (the_world g) = (Return r, w') ->
        r <> FAILURE ->
        exists result,
          fst (stop self g) = Return (self, result) /\
          py_contains "errorCode" result = false /\
          py_get "state" result = Some (VStr "PAUSED"))).
Proof.
  split.
  - intros Hnone. unfold stop. rewrite Hnone. eexists. split; reflexivity.
  - intros p Hsome. unfold stop, call. rewrite Hsome. unfold_monad.
    destruct (set_state p PAUSED (the_world g)) as [[r|e] w] eqn:Hset; simpl.
    + split; [by destruct r|]. split.
      * intros w' [= -> <-]. simpl. eexists. split; reflexivity.
      * intros r' w' [= <- <-] Hr.
        destruct r; try congruence; simpl; eexists; repeat split; reflexivity.
    + split; [done|]. split; [discriminate|]. discriminate.
Qed.

(** [delete] is idempotent on the handle: once it has returned, a second
    call returns the same result and changes nothing. The result names the
    id and says "Pipeline deleted"; it has no state and no error code. *)
Lemma delete_idempotent (self self1 : t) (result : list (string * value))
    (g g1 : Globals) :
  delete self g = (Return (self1, result), g1) ->
  delete self1 g1 = (Return (self1, result), g1) /\
  result = [("id", VStr (id self)); ("message", VStr "Pipeline deleted")] /\
  pipeline self1 = None.
Proof.
  unfold delete, call. unfold_monad.
  destruct (pipeline self) as [p|] eqn:Hp.
  - destruct (set_state p NULL (the_world g)) as [[r|e] w]; simpl; [|discriminate].
    destruct (truthy_watch (bus_watch_id self)); simpl.
    + destruct (get_bus p w) as [[b|e] w2]; simpl; [|discriminate].
      destruct (remove_watch b _ w2) as [[[]|e] w3]; simpl; [|discriminate].
      intros [= <- <- <-]. simpl. done.
    + intros [= <- <- <-]. simpl. done.
  - intros [= <- <- <-]. rewrite Hp. done.
Qed.

(** The methods of a handle leave the clients and the trace alone. *)
Lemma get_status_frame (self : t) (g : Globals) :
  clients (snd (get_status self g)) = clients g /\
  trace (snd (get_status self g)) = trace g.
Proof.
  unfold get_status, call. unfold_monad.
  destruct (pipeline self) as [p|]; [|done].
  destruct (get_state p (the_world g)) as [[s|e] w]; simpl; [|done].
  by destruct (query_position p w) as [[[ok pos]|e] w2].
Qed.

Context {L : EventLoop R}.


End HandleFacts.

(** ** The protocol handler *)

Section ServerFacts.
Context {R : Runtime}.

(** A reply reads the clock, then sends once: the send is in the trace
    with its outcome, and raises into the handler when it failed. *)
Lemma reply_run (websocket : client) (type : string) (payload : value) (g : Globals) :
  exists r g',
    let timestamp := fst (loop_time_ms (the_world g)) in
    let message := envelope type payload timestamp in
    reply websocket type payload g =
      (match r with Return _ => Return tt | Raise e => Raise e end, g') /\
    clients g' = clients g /\
    trace g' = (trace g ++ [Sent websocket message r])%list /\
    (r, the_world g') = ws_send websocket message (snd (loop_time_ms (the_world g))).
Proof.
  unfold reply, send, send_to, now_ms, envelope. unfold_monad.
  destruct (loop_time_ms (the_world g)) as [t w1]. simpl.
  destruct (ws_send websocket _ w1) as [r w2] eqn:Hsend. simpl.
  exists r. eexists. split; [by destruct r|]. done.
Qed.

(** The reply to a command on an id that is not registered. *)
Lemma not_found_run (websocket : client) (pipeline_id : option string) (st : State) :
  exists r g',
    let message :=
      envelope "pipelineError"
        (VDict [("id", GstreamerPipeline.opt_str pipeline_id);
                ("errorCode", VStr "not-found");
                ("errorMessage", VStr "Pipeline not found")])
        (fst (loop_time_ms (the_world (globals st)))) in
    try_except (lift (not_found websocket pipeline_id)) (fun _ => ret tt) st
      = (Return tt, {| pipelines := pipelines st; globals := g' |}) /\
    clients g' = clients (globals st) /\
    trace g' = (trace (globals st) ++ [Sent websocket message r])%list.
Proof.
  unfold not_found, lift. unfold_monad.
  destruct (reply_run websocket "pipelineError"
              (VDict [("id", GstreamerPipeline.opt_str pipeline_id);
                      ("errorCode", VStr "not-found");
                      ("errorMessage", VStr "Pipeline not found")]) (globals st))
    as (r & g' & Hrun & Hcl & Htr & _).
  simpl in Hrun. rewrite Hrun. exists r, g'. by destruct r.
Qed.

Lemma unknown_absent (p : string) (st : State) :
  py_contains p (pipelines st) = false -> unknown (Some p) st = true.
Proof. intros H. unfold unknown. simpl. rewrite H. apply orb_true_r. Qed.

(** C6: on an id that is not in the registry, [startPipeline],
    [stopPipeline] and [deletePipeline] each answer the sender with a
    [pipelineError] whose code is ["not-found"], and the registry is as it
    was. *)
Theorem C6_unknown_id_is_not_found
    (websocket : client) (p : string) (c : command) (st : State) :
  py_contains p (pipelines st) = false ->
  c ∈ [startPipeline (Some p); stopPipeline (Some p); deletePipeline (Some p)] ->
  exists st' r,
    handle_message websocket (parsed c) st = (Return tt, st') /\
    pipelines st' = pipelines st /\
    trace (globals st') =
      (trace (globals st) ++
       [Sent websocket
          (envelope "pipelineError"
             (VDict [("id", VStr p);
                     ("errorCode", VStr "not-found");
                     ("errorMessage", VStr "Pipeline not found")])
             (fst (loop_time_ms (the_world (globals st))))) r])%list.
Proof.
  intros Habsent Hc.
  pose proof (unknown_absent p st Habsent) as Hunknown.
  destruct (not_found_run websocket (Some p) st) as (r & g' & Hrun & _ & Htr).
  exists {| pipelines := pipelines st; globals := g' |}, r.
  split; [|split; [done | exact Htr]].
  rewrite <- Hrun. unfold handle_message, try_except.
  repeat (apply elem_of_cons in Hc as [->|Hc]);
    [| | | by apply elem_of_nil in Hc];
    unfold dispatch, transition; by rewrite Hunknown.
Qed.

(** C5: a [createPipeline] whose elements are empty is answered with the
    error ["invalid-pipeline"]; the registry is as it was, and the outside
    world has seen two reads of the clock and that one send, so no call
    into the engine: no pipeline was launched. *)
Theorem C5_empty_elements_is_invalid_pipeline
    (websocket : client) (payload : create_payload) (st : State) :
  elements_of payload = [] ->
  exists st' r,
    let now := fst (loop_time_ms (the_world (globals st))) in
    let w1 := snd (loop_time_ms (the_world (globals st))) in
    let message :=
      envelope "pipelineError"
        (VDict [("id", VStr (default ("pipeline-" ++ str_of_int now) (cp_id payload)));
                ("errorCode", VStr "invalid-pipeline");
                ("errorMessage", VStr "No pipeline elements provided")])
        (fst (loop_time_ms w1)) in
    handle_message websocket (parsed (createPipeline payload)) st = (Return tt, st') /\
    pipelines st' = pipelines st /\
    trace (globals st') = (trace (globals st) ++ [Sent websocket message r])%list /\
    (r, the_world (globals st')) = ws_send websocket message (snd (loop_time_ms w1)).
Proof.
  intros Hempty. unfold handle_message, dispatch. rewrite Hempty.
  unfold lift at 1. unfold now_ms. unfold_monad. simpl.
  destruct (loop_time_ms (the_world (globals st))) as [now w1] eqn:Hnow. simpl.
  unfold lift. cbn [globals pipelines].
  match goal with
  | |- context [reply websocket ?ty ?pl ?g] =>
      destruct (reply_run websocket ty pl g) as (r & g' & Hrun & Hcl & Htr & Hw)
  end.
  cbn [globals pipelines the_world trace clients] in Hrun, Htr, Hw. rewrite Hrun.
  exists {| pipelines := pipelines st; globals := g' |}, r.
  simpl. by destruct r.
Qed.
End ServerFacts.

Section RegistryFacts.
Context {R : Runtime}.
Import GstreamerPipeline.

(** [create] returns, touches neither clients nor trace, and the only
    error code it reports is ["creation-failed"]. *)
Lemma create_returns (self : t) (g : Globals) :
  exists self' result g',
    create self g = (Return (self', result), g') /\
    clients g' = clients g /\
    trace g' = trace g /\
    (py_contains "errorCode" result = true ->
     py_get "errorCode" result = Some (VStr "creation-failed")).
Proof.
  unfold create, call. unfold_monad. simpl.
  destruct (parse_launch _ _) as [[p|e] w1]; simpl.
  2: { eexists _, _, _. split; [reflexivity|]. done. }
  destruct (set_name _ _ _) as [[[]|e] w2]; simpl.
  2: { eexists _, _, _. split; [reflexivity|]. done. }
  destruct (get_bus _ _) as [[b|e] w3]; simpl.
  2: { eexists _, _, _. split; [reflexivity|]. done. }
  destruct (add_watch _ _) as [[watch_id|e] w4]; simpl.
  2: { eexists _, _, _. split; [reflexivity|]. done. }
  eexists _, _, _. split; [reflexivity|]. done.
Qed.

Lemma delete_frame (self : t) (g : Globals) :
  clients (snd (delete self g)) = clients g /\
  trace (snd (delete self g)) = trace g.
Proof.
  unfold delete, call. unfold_monad.
  destruct (pipeline self) as [p|]; [|done].
  destruct (set_state p NULL (the_world g)) as [[r|e] w]; simpl; [|done].
  destruct (truthy_watch (bus_watch_id self)); simpl; [|done].
  destruct (get_bus p w) as [[b|e] w2]; simpl; [|done].
  by destruct (remove_watch b _ w2) as [[[]|e] w3].
Qed.




(** [pipelines[pipeline_id].method()] on a registered id. *)
Lemma invoke_registered {A : Type} (pipeline_id : string) (self : t)
    (method : t -> M Globals (t * A)) (st : State) :
  py_get pipeline_id (pipelines st) = Some self ->
  invoke pipeline_id method st =
    match method self (globals st) with
    | (Return (self', a), g) =>
        (Return a, {| pipelines := py_set pipeline_id self' (pipelines st); globals := g |})
    | (Raise e, g) => (Raise e, {| pipelines := pipelines st; globals := g |})
    end.
Proof.
  intros H. unfold invoke. rewrite H.
  by destruct (method self (globals st)) as [[[self' a]|e] g].
Qed.




End RegistryFacts.

Section ClaimsOnTheRegistry.
Context {R : Runtime}.
Import GstreamerPipeline.










(** C1, as the code has it: a [createPipeline] with at least one element
    whose id is already registered builds a new handle all the same. When
    the engine accepts it, the sender is answered [pipelineCreated] and the
    new handle takes the place of the old one under that id; when the
    engine refuses, the sender is answered with the error
    ["creation-failed"] and the registry is as it was. Either way the ids
    in the registry, and their order, are as before. *)
Theorem C1_duplicate_create_replaces_the_entry
    (websocket : client) (payload : create_payload) (pipeline_id : string) (st : State) :
  cp_id payload = Some pipeline_id ->
  py_contains pipeline_id (pipelines st) = true ->
  elements_of payload <> [] ->
  exists new result g1 st' r,
    create (init pipeline_id
              (default ("Pipeline " ++ pipeline_id) (cp_description payload))
              (elements_of payload))
           (snd (now_ms (globals st)))
      = (Return (new, result), g1) /\
    handle_message websocket (parsed (createPipeline payload)) st = (Return tt, st') /\
    map fst (pipelines st') = map fst (pipelines st) /\
    if py_contains "errorCode" result then
      py_get "errorCode" result = Some (VStr "creation-failed") /\
      pipelines st' = pipelines st /\
      trace (globals st') =
        (trace (globals st) ++
         [Sent websocket
            (envelope "pipelineError" (VDict result)
               (fst (loop_time_ms (the_world g1)))) r])%list
    else
      pipelines st' = py_set pipeline_id new (pipelines st) /\
      py_get pipeline_id (pipelines st') = Some new /\
      trace (globals st') =
        (trace (globals st) ++
         [Sent websocket
            (envelope "pipelineCreated" (VDict [("pipeline", VDict result)])
               (fst (loop_time_ms (the_world g1)))) r])%list.
Proof.
  intros Hid Hdup Hne.
  unfold handle_message, dispatch. rewrite Hid.
  change (default ?d (Some pipeline_id)) with pipeline_id.
  destruct (elements_of payload) as [|el els] eqn:Hels; [done|].
  unfold lift at 1. unfold_monad.
  pose proof (call_now := eq_refl (now_ms (globals st))).
  unfold now_ms at 2 in call_now. unfold now_ms at 1.
  destruct (loop_time_ms (the_world (globals st))) as [now w0].
  rewrite call_now. cbn [snd]. clear call_now.
  unfold lift at 1. cbn [globals pipelines].
  match goal with
  | |- context [create ?self ?g] =>
      destruct (create_returns self g) as (new & result & g1 & Hcreate & _ & Htr & Hcode)
  end.
  cbn [trace] in Htr. rewrite Hcreate.
  exists new, result, g1.
  destruct (py_contains "errorCode" result) eqn:Herr.
  - unfold lift. cbn [globals pipelines].
    destruct (reply_run websocket "pipelineError" (VDict result) g1)
      as (r & g' & Hrun & _ & Htr' & _).
    cbn zeta in Hrun, Htr'. rewrite Hrun.
    exists {| pipelines := pipelines st; globals := g' |}, r.
    split; [done|]. split; [by destruct r|]. split; [done|].
    split; [by apply Hcode|]. split; [done|]. cbn [globals]. by rewrite Htr', Htr.
  - unfold update_pipelines, lift. cbn [globals pipelines].
    destruct (reply_run websocket "pipelineCreated"
                (VDict [("pipeline", VDict result)]) g1)
      as (r & g' & Hrun & _ & Htr' & _).
    cbn zeta in Hrun, Htr'. rewrite Hrun.
    exists {| pipelines := py_set pipeline_id new (pipelines st); globals := g' |}, r.
    split; [done|]. split; [by destruct r|]. cbn [globals pipelines].
    split; [by apply py_set_keys|].
    split; [done|]. split; [apply py_get_set_eq|]. by rewrite Htr', Htr.
Qed.

(** C4, as the code has it: on the handle, [delete] is idempotent: once
    it has returned, a second call returns the same result, the id with
    the message "Pipeline deleted" and no state, and changes nothing. On
    the wire the first [deletePipeline] answers [pipelineDeleted] and takes
    the id out of the registry, so the second is answered with the error
    ["not-found"] and leaves the registry as the first left it. *)
Theorem C4_second_delete_is_not_found
    (websocket : client) (pipeline_id : string) (st : State)
    (self self1 : t) (result : list (string * value)) (g1 : Globals) :
  NoDup (map fst (pipelines st)) ->
  pipeline_id <> "" ->
  py_get pipeline_id (pipelines st) = Some self ->
  delete self (globals st) = (Return (self1, result), g1) ->
  delete self1 g1 = (Return (self1, result), g1) /\
  result = [("id", VStr (id self)); ("message", VStr "Pipeline deleted")] /\
  exists st1 st2 r1 r2,
    handle_message websocket (parsed (deletePipeline (Some pipeline_id))) st
      = (Return tt, st1) /\
    pipelines st1 = py_del pipeline_id (pipelines st) /\
    py_contains pipeline_id (pipelines st1) = false /\
    trace (globals st1) =
      (trace (globals st) ++
       [Sent websocket
          (envelope "pipelineDeleted" (VDict result)
             (fst (loop_time_ms (the_world g1)))) r1])%list /\
    handle_message websocket (parsed (deletePipeline (Some pipeline_id))) st1
      = (Return tt, st2) /\
    pipelines st2 = pipelines st1 /\
    trace (globals st2) =
      (trace (globals st1) ++
       [Sent websocket
          (envelope "pipelineError"
             (VDict [("id", VStr pipeline_id);
                     ("errorCode", VStr "not-found");
                     ("errorMessage", VStr "Pipeline not found")])
             (fst (loop_time_ms (the_world (globals st1))))) r2])%list.
Proof.
  intros Hnodup Hid Hreg Hdelete.
  destruct (delete_idempotent self self1 result (globals st) g1 Hdelete)
    as (Hagain & Hresult & _).
  split; [exact Hagain|]. split; [exact Hresult|].
  pose proof (delete_frame self (globals st)) as [_ Htr].
  rewrite Hdelete in Htr. cbn [snd] in Htr.
  assert (Hknown : unknown (Some pipeline_id) st = false).
  { unfold unknown. cbn [falsy default].
    apply String.eqb_neq in Hid. rewrite Hid. cbn [orb].
    apply negb_false_iff, py_contains_get. eauto. }
  destruct (reply_run websocket "pipelineDeleted" (VDict result) g1)
    as (r1 & g' & Hrun & _ & Htr' & _).
  cbn zeta in Hrun, Htr'.
  set (st1 := {| pipelines := py_del pipeline_id (py_set pipeline_id self1 (pipelines st));
                 globals := g' |}).
  assert (Hkeys : py_del pipeline_id (py_set pipeline_id self1 (pipelines st))
                  = py_del pipeline_id (pipelines st)).
  { clear -Hreg. induction (pipelines st) as [|[k v] d IH]; simpl in *; [done|].
    destruct (String.eqb pipeline_id k) eqn:E; simpl; rewrite E; [done|].
    by rewrite IH. }
  assert (Hgone : py_contains pipeline_id (pipelines st1) = false).
  { subst st1. cbn [pipelines]. rewrite Hkeys. by apply py_del_contains. }
  assert (Hfirst : handle_message websocket (parsed (deletePipeline (Some pipeline_id))) st
                   = (Return tt, st1)).
  { unfold handle_message, dispatch. unfold_monad. rewrite Hknown.
    change (default "" (Some pipeline_id)) with pipeline_id.
    rewrite (invoke_registered pipeline_id self delete st Hreg), Hdelete.
    unfold update_pipelines, lift. cbn [globals pipelines].
    rewrite Hrun. by destruct r1. }
  destruct (not_found_run websocket (Some pipeline_id) st1) as (r2 & g2 & Hrun2 & _ & Htr2).
  exists st1, {| pipelines := pipelines st1; globals := g2 |}, r1, r2.
  split; [exact Hfirst|]. split; [by subst st1|]. split; [exact Hgone|].
  split; [subst st1; cbn [globals]; by rewrite Htr', Htr|].
  split; [|split; [done | exact Htr2]].
  rewrite <- Hrun2. unfold handle_message, dispatch, try_except.
  by rewrite (unknown_absent pipeline_id st1 Hgone).
Qed.
End ClaimsOnTheRegistry.

(** ** The registry keeps one entry per id *)

Section RegistryInvariant.
Context {R : Runtime}.

Lemma py_del_NoDup {V : Type} (k : string) (d : list (string * V)) :
  NoDup (map fst d) -> NoDup (map fst (py_del k d)).
Proof.
  induction d as [|[k' v'] d IH]; simpl; [done|].
  intros [Hnotin Hnd]%NoDup_cons.
  destruct (String.eqb k k') eqn:E; simpl; [done|].
  apply NoDup_cons. split; [|by apply IH].
  intros Hin. apply Hnotin. clear -Hin.
  induction d as [|[k0 v0] d IHd]; simpl in *; [done|].
  destruct (String.eqb k k0); simpl in *.
  - apply elem_of_cons. by right.
  - apply elem_of_cons in Hin as [->|Hin]; apply elem_of_cons; [by left|].
    right. by apply IHd.
Qed.

Lemma lift_pipelines {A : Type} (m : M Globals A) (st : State) :
  pipelines (snd (lift m st)) = pipelines st.
Proof. unfold lift. by destruct (m (globals st)). Qed.

Lemma invoke_unique_ids {A : Type} (pipeline_id : string)
    (method : GstreamerPipeline.t -> M Globals (GstreamerPipeline.t * A)) (st : State) :
  unique_ids st -> unique_ids (snd (invoke pipeline_id method st)).
Proof.
  unfold unique_ids, invoke. intros H.
  destruct (py_get pipeline_id (pipelines st)) as [self|]; [|done].
  destruct (method self (globals st)) as [[[self' a]|e] g]; simpl; [|done].
  by apply py_set_NoDup.
Qed.

Lemma statuses_unique_ids (ids : list string) (st : State) :
  unique_ids st -> unique_ids (snd (statuses ids st)).
Proof.
  revert st. induction ids as [|pipeline_id ids IH]; intros st H; simpl; [done|].
  unfold_monad.
  pose proof (invoke_unique_ids pipeline_id GstreamerPipeline.get_status st H) as H1.
  destruct (invoke pipeline_id GstreamerPipeline.get_status st) as [[status|e] st1];
    simpl in *; [|done].
  pose proof (IH st1 H1) as H2.
  by destruct (statuses ids st1) as [[rest|e] st2].
Qed.

Lemma transition_unique_ids (websocket : client) (pipeline_id : option string)
    (method : GstreamerPipeline.t ->
              M Globals (GstreamerPipeline.t * list (string * value))) (st : State) :
  unique_ids st -> unique_ids (snd (transition websocket pipeline_id method st)).
Proof.
  intros H. unfold transition.
  destruct (unknown pipeline_id st).
  - unfold unique_ids. by rewrite lift_pipelines.
  - unfold_monad.
    pose proof (invoke_unique_ids (default "" pipeline_id) method st H) as H1.
    destruct (invoke (default "" pipeline_id) method st) as [[result|e] st1];
      simpl in *; [|done].
    unfold unique_ids. destruct (py_contains "errorCode" result); by rewrite lift_pipelines.
Qed.

(** Every round of the receive loop keeps the ids of the registry distinct. *)
Lemma handle_message_unique_ids (websocket : client) (message : incoming) (st : State) :
  unique_ids st -> unique_ids (snd (handle_message websocket message st)).
Proof.
  intros H. destruct message as [text|c]; simpl; [done|].
  unfold try_except.
  assert (Hd : unique_ids (snd (dispatch websocket c st))).
  { destruct c as [|payload|pipeline_id|pipeline_id|pipeline_id| |ty]; simpl.
    - unfold unique_ids. by rewrite lift_pipelines.
    - unfold_monad.
      pose proof (lift_pipelines now_ms st) as Hnow.
      destruct (lift now_ms st) as [[now|e] st0]; simpl in *;
        [|unfold unique_ids; by rewrite Hnow].
      assert (H0 : unique_ids st0) by (unfold unique_ids; by rewrite Hnow).
      destruct (elements_of payload) as [|el els].
      + unfold unique_ids. by rewrite lift_pipelines.
      + match goal with
        | |- context [lift (GstreamerPipeline.create ?self) st0] =>
            pose proof (lift_pipelines (GstreamerPipeline.create self) st0) as Hc;
            destruct (lift (GstreamerPipeline.create self) st0)
              as [[[new result]|e] st1]
        end; simpl in *; [|unfold unique_ids; by rewrite Hc].
        destruct (py_contains "errorCode" result).
        * unfold unique_ids. by rewrite lift_pipelines, Hc.
        * unfold update_pipelines. simpl.
          unfold unique_ids.
          match goal with
          | |- context [lift ?m ?s] => rewrite (surjective_pairing (lift m s))
          end.
          simpl. rewrite lift_pipelines. simpl. rewrite Hc. by apply py_set_NoDup.
    - by apply transition_unique_ids.
    - by apply transition_unique_ids.
    - destruct (unknown pipeline_id st).
      + unfold unique_ids. by rewrite lift_pipelines.
      + unfold_monad.
        pose proof (invoke_unique_ids (default "" pipeline_id)
                      GstreamerPipeline.delete st H) as H1.
        destruct (invoke (default "" pipeline_id) GstreamerPipeline.delete st)
          as [[result|e] st1]; simpl in *; [|done].
        unfold update_pipelines. simpl. unfold unique_ids.
        match goal with
        | |- context [lift ?m ?s] => rewrite (surjective_pairing (lift m s))
        end.
        simpl. rewrite lift_pipelines. simpl. by apply py_del_NoDup.
    - unfold pipelines_list. unfold_monad.
      pose proof (statuses_unique_ids (map fst (pipelines st)) st H) as H1.
      destruct (statuses (map fst (pipelines st)) st) as [[l|e] st1]; simpl in *; [|done].
      unfold unique_ids. by rewrite lift_pipelines.
    - done. }
  by destruct (dispatch websocket c st) as [[[]|e] st1].
Qed.
End RegistryInvariant.

(** ** Runs on the small runtime *)

Lemma toy_clients_connected (st : @State Toy.runtime) :
  bool_decide (clients (globals st) = ∅) = false -> clients (globals st) <> ∅.
Proof. apply bool_decide_eq_false. Qed.


Example first_broken_broadcast :
  trace (snd (@broadcast_message Toy.runtime [("type", VStr "pong")]
                (globals Toy.first_broken)))
  = [Sent 2%nat (VDict [("type", VStr "pong"); ("timestamp", VInt 1000)]) (Return tt);
     Sent 1%nat (VDict [("type", VStr "pong"); ("timestamp", VInt 1000)])
       (Raise (ConnectionClosed "no close frame received or sent"))].
Proof. vm_compute. reflexivity. Qed.

(** Without [return_exceptions] the same failure would reach the caller. *)
Example gather_without_return_exceptions :
  fst (@gather Toy.runtime unit
         (map (fun c => send_to c VNone) [2%nat; 1%nat]) false
         (globals Toy.first_broken))
  = Raise (ConnectionClosed "no close frame received or sent").
Proof. vm_compute. reflexivity. Qed.

Lemma C10_witness :
  @broadcast_message Toy.runtime [("type", VStr "pong")] (globals (Toy.server [] Toy.fresh))
    = (Return [("type", VStr "pong")], globals (Toy.server [] Toy.fresh)) /\
  exists g',
    @broadcast_message Toy.runtime [("type", VStr "pong")] (globals Toy.two_clients)
      = (Return [("type", VStr "pong"); ("timestamp", VInt 1000)], g').
Proof.
  split.
  - apply (proj1 (@C10_broadcast_without_clients_is_noop Toy.runtime
                    [("type", VStr "pong")] (globals (Toy.server [] Toy.fresh)))).
    reflexivity.
  - destruct (proj2 (@C10_broadcast_without_clients_is_noop Toy.runtime
                       [("type", VStr "pong")] (globals Toy.two_clients)))
      as (g' & Hb & _).
    + apply toy_clients_connected. vm_compute. reflexivity.
    + exists g'. exact Hb.
Defined.

(** [create] on a fresh handle for ["p1"]: state NULL, watch 1 installed. *)
Lemma C2_witness :
  exists self' result g',
    @GstreamerPipeline.create Toy.runtime
      (GstreamerPipeline.init "p1" "Pipeline p1" [Toy.videotestsrc])
      (globals Toy.two_clients)
    = (Return (self', result), g') /\
    py_get "state" result = Some (VStr "NULL") /\
    GstreamerPipeline.bus_watch_id self' = Some 1 /\
    Toy.watches (the_world g') = [0%nat].
Proof.
  destruct (@C2_create_success_is_null_and_subscribed Toy.runtime
              (GstreamerPipeline.init "p1" "Pipeline p1" [Toy.videotestsrc])
              (globals Toy.two_clients))
    as (self' & result & g' & Hcreate & Hsuccess).
  exists self', result, g'. split; [exact Hcreate|].
  vm_compute in Hcreate. injection Hcreate as <- <- <-.
  destruct (Hsuccess eq_refl) as [Hstate _].
  split; [exact Hstate|]. split; reflexivity.
Defined.

Lemma C9_witness :
  (exists result,
     @GstreamerPipeline.stop Toy.runtime
       (GstreamerPipeline.init "p1" "Pipeline p1" [Toy.videotestsrc])
       (globals Toy.two_clients)
     = (Return (GstreamerPipeline.init "p1" "Pipeline p1" [Toy.videotestsrc], result),
        globals Toy.two_clients) /\
     py_get "errorCode" result = Some (VStr "not-created")) /\
  (exists result,
     fst (@GstreamerPipeline.stop Toy.runtime Toy.p1
            (globals (Toy.server [] Toy.stuck_world)))
     = Return (Toy.p1, result) /\
     py_get "errorCode" result = Some (VStr "stop-failed")) /\
  (exists result,
     fst (@GstreamerPipeline.stop Toy.runtime Toy.p1 (globals Toy.with_p1))
     = Return (Toy.p1, result) /\
     py_contains "errorCode" result = false /\
     py_get "state" result = Some (VStr "PAUSED")).
Proof.
  split; [|split].
  - apply (proj1 (@C9_stop_requests_paused Toy.runtime
                    (GstreamerPipeline.init "p1" "Pipeline p1" [Toy.videotestsrc])
                    (globals Toy.two_clients))).
    reflexivity.
  - destruct (proj2 (@C9_stop_requests_paused Toy.runtime Toy.p1
                       (globals (Toy.server [] Toy.stuck_world))) 0%nat eq_refl)
      as (_ & Hfail & _).
    apply (Hfail Toy.stuck_world). reflexivity.
  - destruct (proj2 (@C9_stop_requests_paused Toy.runtime Toy.p1
                       (globals Toy.with_p1)) 0%nat eq_refl)
      as (_ & _ & Hok).
    eapply (Hok SUCCESS); [vm_compute; reflexivity | discriminate].
Defined.



Lemma C5_witness :
  exists st' r,
    @handle_message Toy.runtime 1%nat
      (parsed (createPipeline
                 {| cp_id := Some "p2"; cp_description := None;
                    cp_pipeline := Some {| def_elements := Some [] |} |}))
      Toy.with_p1
    = (Return tt, st') /\
    pipelines st' = pipelines Toy.with_p1 /\
    map error_code_of (trace (globals st'))
    = map error_code_of (trace (globals Toy.with_p1) ++
                         [Sent 1%nat
                            (envelope "pipelineError"
                               (VDict [("id", VStr "p2");
                                       ("errorCode", VStr "invalid-pipeline");
                                       ("errorMessage", VStr "No pipeline elements provided")])
                               1003) r]).
Proof.
  destruct (@C5_empty_elements_is_invalid_pipeline Toy.runtime 1%nat
              {| cp_id := Some "p2"; cp_description := None;
                 cp_pipeline := Some {| def_elements := Some [] |} |}
              Toy.with_p1 eq_refl)
    as (st' & r & Hrun & Hreg & Htr & _).
  exists st', r. split; [exact Hrun|]. split; [exact Hreg|].
  rewrite Htr. reflexivity.
Defined.

Lemma C6_witness :
  exists st' r,
    @handle_message Toy.runtime 1%nat (parsed (stopPipeline (Some "p2"))) Toy.with_p1
    = (Return tt, st') /\
    pipelines st' = pipelines Toy.with_p1 /\
    trace (globals st') =
      (trace (globals Toy.with_p1) ++
       [Sent 1%nat
          (envelope "pipelineError"
             (VDict [("id", VStr "p2");
                     ("errorCode", VStr "not-found");
                     ("errorMessage", VStr "Pipeline not found")])
             1002) r])%list.
Proof.
  apply (@C6_unknown_id_is_not_found Toy.runtime 1%nat "p2"
           (stopPipeline (Some "p2")) Toy.with_p1).
  - vm_compute. reflexivity.
  - apply elem_of_cons. right. apply elem_of_cons. by left.
Defined.

(** A second [createPipeline] for ["p1"]: answered [pipelineCreated], and
    the entry now holds the engine pipeline 1 where it held 0. *)
Lemma C1_witness :
  exists new st',
    @handle_message Toy.runtime 1%nat Toy.create_p1 Toy.with_p1 = (Return tt, st') /\
    map fst (pipelines st') = map fst (pipelines Toy.with_p1) /\
    py_get "p1" (pipelines st') = Some new /\
    GstreamerPipeline.pipeline new = Some 1%nat /\
    map type_of (trace (globals st'))
    = (map type_of (trace (globals Toy.with_p1)) ++ [Some (VStr "pipelineCreated")])%list.
Proof.
  destruct (@C1_duplicate_create_replaces_the_entry Toy.runtime 1%nat
              {| cp_id := Some "p1"; cp_description := None;
                 cp_pipeline := Some {| def_elements := Some [Toy.videotestsrc] |} |}
              "p1" Toy.with_p1)
    as (new & result & g1 & st' & r & Hcreate & Hrun & Hkeys & Hcases).
  - reflexivity.
  - vm_compute. reflexivity.
  - discriminate.
  - vm_compute in Hcreate. injection Hcreate as <- <- <-.
    cbn [py_contains String.eqb Ascii.eqb Bool.eqb] in Hcases.
    destruct Hcases as (_ & Hget & Htr).
    eexists _, st'. split; [exact Hrun|]. split; [exact Hkeys|].
    split; [exact Hget|]. split; [reflexivity|].
    rewrite Htr, map_app. reflexivity.
Defined.

(** C1 as the spec words it fails: ["p1"] is registered, a second
    [createPipeline] for it is answered [pipelineCreated] without any error
    code, and the entry for ["p1"] is no longer the handle it was. *)
Lemma C1_counterexample :
  py_get "p1" (pipelines Toy.with_p1) = Some Toy.p1 /\
  let st' := snd (@handle_message Toy.runtime 1%nat Toy.create_p1
                    {| pipelines := pipelines Toy.with_p1;
                       globals := {| clients := clients (globals Toy.with_p1);
                                     the_world := the_world (globals Toy.with_p1);
                                     trace := [] |} |}) in
  map type_of (trace (globals st')) = [Some (VStr "pipelineCreated")] /\
  map error_code_of (trace (globals st')) = [None] /\
  ~ Some (VStr "already-exists") ∈ map error_code_of (trace (globals st')) /\
  py_get "p1" (pipelines st') <> Some Toy.p1.
Proof.
  split; [vm_compute; reflexivity|].
  cbv zeta. split; [vm_compute; reflexivity|]. split; [vm_compute; reflexivity|].
  split.
  - vm_compute. intros H.
    repeat (apply elem_of_cons in H as [H|H]; [discriminate|]).
    by apply elem_of_nil in H.
  - vm_compute. discriminate.
Qed.

Lemma C4_witness :
  exists st1 st2 r1 r2,
    @handle_message Toy.runtime 1%nat Toy.delete_p1 Toy.with_p1 = (Return tt, st1) /\
    pipelines st1 = [] /\
    handle_message 1%nat Toy.delete_p1 st1 = (Return tt, st2) /\
    pipelines st2 = pipelines st1 /\
    map error_code_of (trace (globals st2))
    = map error_code_of
        (trace (globals st1) ++
         [Sent 1%nat
            (envelope "pipelineError"
               (VDict [("id", VStr "p1");
                       ("errorCode", VStr "not-found");
                       ("errorMessage", VStr "Pipeline not found")])
               0) r2]) /\
    type_of (Sent 1%nat (envelope "pipelineDeleted" VNone 0) r1)
    = Some (VStr "pipelineDeleted").
Proof.
  destruct (@C4_second_delete_is_not_found Toy.runtime 1%nat "p1" Toy.with_p1
              Toy.p1
              (GstreamerPipeline.with_pipeline None
                 (GstreamerPipeline.with_bus_watch_id None Toy.p1))
              [("id", VStr "p1"); ("message", VStr "Pipeline deleted")]
              (snd (@GstreamerPipeline.delete Toy.runtime Toy.p1 (globals Toy.with_p1))))
    as (_ & _ & st1 & st2 & r1 & r2 & Hfirst & Hreg1 & _ & _ & Hsecond & Hreg2 & Htr2).
  - vm_compute. apply NoDup_singleton.
  - discriminate.
  - vm_compute. reflexivity.
  - vm_compute. reflexivity.
  - exists st1, st2, r1, r2. split; [exact Hfirst|]. split; [exact Hreg1|].
    split; [exact Hsecond|]. split; [exact Hreg2|].
    split; [|reflexivity]. rewrite Htr2, !map_app. reflexivity.
Defined.

(** C4 as the spec words it fails: two [deletePipeline] in a row for the
    registered ["p1"]. The first is answered [pipelineDeleted] with a
    payload that has no state; the second is answered with the error
    ["not-found"]. *)
Lemma C4_counterexample :
  py_get "p1" (pipelines Toy.with_p1) = Some Toy.p1 /\
  let st' := Toy.after [Toy.delete_p1; Toy.delete_p1]
               {| pipelines := pipelines Toy.with_p1;
                  globals := {| clients := clients (globals Toy.with_p1);
                                the_world := the_world (globals Toy.with_p1);
                                trace := [] |} |} in
  map type_of (trace (globals st'))
    = [Some (VStr "pipelineDeleted"); Some (VStr "pipelineError")] /\
  map error_code_of (trace (globals st')) = [None; Some (VStr "not-found")] /\
  trace (globals st') !! 0%nat <> trace (globals st') !! 1%nat /\
  map (fun ev => match ev with
                 | Sent _ m _ =>
                     match field "payload" m with
                     | Some payload => field "state" payload
                     | None => None
                     end
                 | Slept _ => None
                 end) (trace (globals st')) = [None; None].
Proof.
  split; [vm_compute; reflexivity|].
  cbv zeta. split; [vm_compute; reflexivity|]. split; [vm_compute; reflexivity|].
  split; [vm_compute; discriminate | vm_compute; reflexivity].
Qed.



(** Two turns of the polling loop: over a playing pipeline it sleeps a
    second each turn; over one whose polling raises it sleeps five, and goes
    on. *)
Example polling_a_playing_pipeline :
  let (r, st') := @send_stats_updates Toy.runtime 2 Toy.p1_playing in
  r = Return tt /\ sleeps (trace (globals st')) = [1; 1].
Proof. vm_compute. split; reflexivity. Qed.

Example polling_a_lost_pipeline :
  let (r, st') := @send_stats_updates Toy.runtime 2 Toy.p1_lost in
  r = Return tt /\ trace (globals st') = [Slept 5; Slept 5].
Proof. vm_compute. split; reflexivity. Qed.

(** * Further properties of the code *)

(** ** Pipeline descriptions *)

Lemma string_append_assoc (a b c : string) : ((a ++ b) ++ c)%string = (a ++ b ++ c)%string.
Proof.
  induction a as [|ch a IH]; [reflexivity|].
  change (String ch ((a ++ b) ++ c) = String ch (a ++ b ++ c)). by rewrite IH.
Qed.

Lemma string_append_nil_r (a : string) : (a ++ "")%string = a.
Proof.
  induction a as [|ch a IH]; [reflexivity|].
  change (String ch (a ++ "") = String ch a). by rewrite IH.
Qed.

(** [" name=value"], what the loop over the properties appends for one. *)
Lemma fold_left_append (f : string * string -> string) (props : list (string * string))
    (el_str : string) :
  fold_left (fun acc kv => (acc ++ f kv)%string) props el_str
  = (el_str ++ String.concat "" (map f props))%string.
Proof.
  revert el_str. induction props as [|kv props IH]; intros el_str; simpl.
  - by rewrite string_append_nil_r.
  - rewrite IH, string_append_assoc. f_equal.
    destruct props as [|kv' props]; simpl; [by rewrite string_append_nil_r | done].
Qed.

Lemma fold_left_pointwise {A B : Type} (f g : A -> B -> A) (l : list B) (a : A) :
  (forall a b, f a b = g a b) -> fold_left f l a = fold_left g l a.
Proof.
  intros H. revert a. induction l as [|b l IH]; intros a; simpl; [done|].
  by rewrite H, IH.
Qed.

(** X1: the description handed to the engine is the stages joined by
    [" ! "], each stage its type followed by [" name=value"] for each of its
    properties in their order; a stage with an empty [properties] renders as
    one without the key, as its bare type. *)
Theorem X1_pipeline_string_renders_stages (self : GstreamerPipeline.t) :
  GstreamerPipeline.build_pipeline_string self
  = String.concat " ! "
      (map (fun e =>
              (el_type e ++
               String.concat ""
                 (map (fun kv => " " ++ fst kv ++ "=" ++ snd kv)
                    (default [] (el_properties e))))%string)
         (GstreamerPipeline.elements self)) /\
  forall e, el_properties e = None \/ el_properties e = Some [] ->
    GstreamerPipeline.element_string e = el_type e.
Proof.
  assert (Hel : forall e,
             GstreamerPipeline.element_string e
             = (el_type e ++
                String.concat ""
                  (map (fun kv => " " ++ fst kv ++ "=" ++ snd kv)
                     (default [] (el_properties e))))%string).
  { intros e. unfold GstreamerPipeline.element_string.
    replace (match el_properties e with Some props => props | None => [] end)
      with (default [] (el_properties e)) by (by destruct (el_properties e)).
    rewrite <- (fold_left_append (fun kv => (" " ++ fst kv ++ "=" ++ snd kv)%string)).
    apply fold_left_pointwise. intros acc kv. reflexivity. }
  split.
  - unfold GstreamerPipeline.build_pipeline_string. f_equal.
    apply map_ext. intros e. apply Hel.
  - intros e [He|He]; rewrite Hel, He; simpl; apply string_append_nil_r.
Qed.

Lemma X1_witness :
  GstreamerPipeline.element_string
    {| el_type := "fakesink"; el_properties := Some [] |} = "fakesink" /\
  GstreamerPipeline.build_pipeline_string
    (GstreamerPipeline.init "p" "d" [Toy.videotestsrc; Runs.udpsink])
  = "videotestsrc ! udpsink host=10.0.0.7 port=5000".
Proof.
  split.
  - apply (proj2 (X1_pipeline_string_renders_stages
                    (GstreamerPipeline.init "p" "d" []))).
    right. reflexivity.
  - rewrite (proj1 (X1_pipeline_string_renders_stages
                      (GstreamerPipeline.init "p" "d" [Toy.videotestsrc; Runs.udpsink]))).
    reflexivity.
Defined.

(** ** Floats *)

Lemma pow2_pos (z : Z) : 0 < pow2 z.
Proof. unfold pow2. apply Z.pow_pos_nonneg; lia. Qed.

(** Rounding keeps the sign: the float nearest to a quotient that is not
    negative is not negative. *)
Lemma nearest_float_nonneg (n d : Z) :
  0 <= n -> 0 < d -> 0 <= mantissa (nearest_float n d).
Proof.
  intros Hn Hd. unfold nearest_float.
  destruct (n =? 0); [done|]. cbv zeta. cbn [mantissa].
  match goal with
  | |- context [Z.abs n * pow2 ?a / (d * pow2 ?b)] =>
      assert (Hm : 0 <= Z.abs n * pow2 a / (d * pow2 b))
  end.
  { pose proof (pow2_pos (- ((if d * pow2 (Z.log2 (Z.abs n) - Z.log2 d)
                                   <=? Z.abs n * pow2 (- (Z.log2 (Z.abs n) - Z.log2 d))
                               then Z.log2 (Z.abs n) - Z.log2 d
                               else Z.log2 (Z.abs n) - Z.log2 d - 1) - 52))).
    pose proof (pow2_pos ((if d * pow2 (Z.log2 (Z.abs n) - Z.log2 d)
                              <=? Z.abs n * pow2 (- (Z.log2 (Z.abs n) - Z.log2 d))
                           then Z.log2 (Z.abs n) - Z.log2 d
                           else Z.log2 (Z.abs n) - Z.log2 d - 1) - 52)).
    apply Z.div_pos; nia. }
  apply Z.mul_nonneg_nonneg; [lia|].
  match goal with |- context [if ?c then _ else _] => destruct c end; lia.
Qed.

Lemma float_mul_nonneg (x y : float) :
  0 <= mantissa x -> 0 <= mantissa y -> 0 <= mantissa (float_mul x y).
Proof.
  intros Hx Hy. unfold float_mul. cbv zeta.
  apply nearest_float_nonneg; [|apply pow2_pos].
  pose proof (pow2_pos (exponent x + exponent y)). nia.
Qed.

Lemma int_of_float_nonneg (x : float) : 0 <= mantissa x -> 0 <= int_of_float x.
Proof.
  intros Hx. unfold int_of_float.
  destruct (Z.leb_spec 0 (exponent x)) as [He|He].
  - apply Z.mul_nonneg_nonneg; [done|]. apply Z.pow_nonneg. lia.
  - apply Z.quot_pos; [done|]. apply Z.pow_pos_nonneg; lia.
Qed.

(** The rounding shows: 4.1 seconds at 30 frames a second are 122 frames,
    one less than the exact product has, since the float nearest to 4.1 is
    below it and so is the float product. Other positions, the largest and
    a negative one included. *)
Example frames_after_4100_ms :
  GstreamerPipeline.simulated_stats (PyFloat (true_div 4100000000 GstreamerPipeline.Gst_SECOND))
  = [("bufferHealth", VInt 80); ("bitrate", VInt 2500000);
     ("framesReceived", VInt 222); ("framesDropped", VInt 2); ("latency", VInt 150)].
Proof. vm_compute. reflexivity. Qed.

Example frames_at_other_positions :
  map (fun position_ns =>
         let position := PyFloat (true_div position_ns GstreamerPipeline.Gst_SECOND) in
         (py_int (times_int position 30), py_int (times_float position one_half)))
    [0; 1; 999999999; 123456789012; 9007199254740993; 9223372036854775807; -1500000000]
  = [(0, 0); (0, 0); (29, 0); (3703, 61); (270215977, 4503599);
     (276701161105, 4611686018); (-45, 0)].
Proof. vm_compute. reflexivity. Qed.

(** ** More on the pipeline handle *)

Section MoreHandleFacts.
Context {R : Runtime}.

Lemma start_frame (self : GstreamerPipeline.t) (g : Globals) :
  clients (snd (GstreamerPipeline.start self g)) = clients g /\
  trace (snd (GstreamerPipeline.start self g)) = trace g.
Proof.
  unfold GstreamerPipeline.start, call. unfold_monad.
  destruct (GstreamerPipeline.pipeline self) as [p|]; [|done].
  destruct (set_state p PLAYING (the_world g)) as [[r|e] w]; simpl; [|done].
  by destruct (StateChangeReturn_eqb r FAILURE).
Qed.

Lemma stop_frame (self : GstreamerPipeline.t) (g : Globals) :
  clients (snd (GstreamerPipeline.stop self g)) = clients g /\
  trace (snd (GstreamerPipeline.stop self g)) = trace g.
Proof.
  unfold GstreamerPipeline.stop, call. unfold_monad.
  destruct (GstreamerPipeline.pipeline self) as [p|]; [|done].
  destruct (set_state p PAUSED (the_world g)) as [[r|e] w]; simpl; [|done].
  by destruct (StateChangeReturn_eqb r FAILURE).
Qed.

(** X2: [start] on a handle without an engine pipeline fails with
    [not-created] and calls nothing; on a handle with one, its only engine
    call is the request for PLAYING; when the engine answers FAILURE the
    result is the error [start-failed], and on any other answer, ASYNC
    included, it is a snapshot in state PLAYING. The handle itself is never
    changed. *)
Theorem X2_start_requests_playing (self : GstreamerPipeline.t) (g : Globals) :
  (GstreamerPipeline.pipeline self = None ->
   exists result,
     GstreamerPipeline.start self g = (Return (self, result), g) /\
     py_get "errorCode" result = Some (VStr "not-created")) /\
  (forall p, GstreamerPipeline.pipeline self = Some p ->
     the_world (snd (GstreamerPipeline.start self g))
     = snd (set_state p PLAYING (the_world g)) /\
     (forall w', set_state p PLAYING (the_world g) = (Return FAILURE, w') ->
        exists result,
          fst (GstreamerPipeline.start self g) = Return (self, result) /\
          py_get "errorCode" result = Some (VStr "start-failed")) /\
     (forall r w', set_state p PLAYING (the_world g) = (Return r, w') ->
        r <> FAILURE ->
        exists result,
          fst (GstreamerPipeline.start self g) = Return (self, result) /\
          py_contains "errorCode" result = false /\
          py_get "state" result = Some (VStr "PLAYING"))).
Proof.
  split.
  - intros Hnone. unfold GstreamerPipeline.start. rewrite Hnone.
    eexists. split; reflexivity.
  - intros p Hsome. unfold GstreamerPipeline.start, call. rewrite Hsome. unfold_monad.
    destruct (set_state p PLAYING (the_world g)) as [[r|e] w] eqn:Hset; simpl.
    + split; [by destruct r|]. split.
      * intros w' [= -> <-]. simpl. eexists. split; reflexivity.
      * intros r' w' [= <- <-] Hr.
        destruct r; try congruence; simpl; eexists; repeat split; reflexivity.
    + split; [done|]. split; discriminate.
Qed.

(** X3: once [delete] has returned, the handle has neither engine pipeline
    nor watch: [start] and [stop] on it fail with [not-created], and
    [get_status] reports state NULL with empty stats, all three without a
    call into the engine. *)
Theorem X3_deleted_handle_is_not_created
    (self self1 : GstreamerPipeline.t) (result : list (string * value)) (g g1 : Globals) :
  GstreamerPipeline.delete self g = (Return (self1, result), g1) ->
  GstreamerPipeline.pipeline self1 = None /\
  GstreamerPipeline.id self1 = GstreamerPipeline.id self /\
  (GstreamerPipeline.pipeline self <> None ->
   GstreamerPipeline.truthy_watch (GstreamerPipeline.bus_watch_id self) = true ->
   GstreamerPipeline.bus_watch_id self1 = None) /\
  forall g2,
    (exists r, GstreamerPipeline.start self1 g2 = (Return (self1, r), g2) /\
               py_get "errorCode" r = Some (VStr "not-created")) /\
    (exists r, GstreamerPipeline.stop self1 g2 = (Return (self1, r), g2) /\
               py_get "errorCode" r = Some (VStr "not-created")) /\
    GstreamerPipeline.get_status self1 g2
    = (Return (self1, [("id", VStr (GstreamerPipeline.id self));
                       ("state", VStr "NULL");
                       ("stats", VDict [])]), g2).
Proof.
  intros Hdelete.
  assert (Hshape : GstreamerPipeline.pipeline self1 = None /\
                   GstreamerPipeline.id self1 = GstreamerPipeline.id self /\
                   (GstreamerPipeline.pipeline self <> None ->
                    GstreamerPipeline.truthy_watch (GstreamerPipeline.bus_watch_id self) = true ->
                    GstreamerPipeline.bus_watch_id self1 = None)).
  { revert Hdelete. unfold GstreamerPipeline.delete, call. unfold_monad.
    destruct (GstreamerPipeline.pipeline self) as [p|] eqn:Hp.
    - destruct (set_state p NULL (the_world g)) as [[r|e] w]; simpl; [|discriminate].
      destruct (GstreamerPipeline.truthy_watch (GstreamerPipeline.bus_watch_id self)); simpl.
      + destruct (get_bus p w) as [[b|e] w2]; simpl; [|discriminate].
        destruct (remove_watch b _ w2) as [[[]|e] w3]; simpl; [|discriminate].
        intros [= <- <- <-]. done.
      + intros [= <- <- <-]. simpl. by repeat split.
    - intros [= <- <- <-]. done. }
  destruct Hshape as (Hnone & Hid & Hwatch).
  split; [exact Hnone|]. split; [exact Hid|]. split; [exact Hwatch|].
  intros g2.
  unfold GstreamerPipeline.start, GstreamerPipeline.stop, GstreamerPipeline.get_status.
  rewrite Hnone. unfold GstreamerPipeline.not_created. rewrite Hid.
  split; [|split]; [eexists; split; reflexivity | eexists; split; reflexivity | reflexivity].
Qed.

(** X4: [get_status] on a handle with an engine pipeline, when both queries
    return: the snapshot names the handle, its state is the name of the
    engine's state, ["UNKNOWN"] for one outside the table, and its stats are
    the ones the handle now stores; only the stats of the handle change.
    When the position query reports failure the position counts as the int
    0 whatever number came with it, so 100 frames are received and none
    dropped. When it reports success the position is the float nearest to
    the nanoseconds over [Gst.SECOND], the frames received are 100 plus the
    float product of that with 30, truncated, and the frames dropped the
    float product of it with 0.5, truncated; for nanoseconds that are not
    negative the frames received are at least 100 and the frames dropped
    not negative. *)
Theorem X4_get_status_reports_engine_state
    (self : GstreamerPipeline.t) (p : handle) (g : Globals)
    (state : GstState) (w1 w2 : world) (success : bool) (position_ns : Z) :
  GstreamerPipeline.pipeline self = Some p ->
  get_state p (the_world g) = (Return state, w1) ->
  query_position p w1 = (Return (success, position_ns), w2) ->
  exists self' received dropped,
    GstreamerPipeline.get_status self g
    = (Return (self', [("id", VStr (GstreamerPipeline.id self));
                       ("state", VStr (GstreamerPipeline.state_name state));
                       ("stats", VDict (GstreamerPipeline.stats self'))]),
       {| clients := clients g; the_world := w2; trace := trace g |}) /\
    self' = GstreamerPipeline.with_stats (GstreamerPipeline.stats self') self /\
    GstreamerPipeline.state_name state ∈ ["NULL"; "READY"; "PAUSED"; "PLAYING"; "UNKNOWN"] /\
    GstreamerPipeline.stats self'
    = [("bufferHealth", VInt 80); ("bitrate", VInt 2500000);
       ("framesReceived", VInt received); ("framesDropped", VInt dropped);
       ("latency", VInt 150)] /\
    (success = false -> received = 100 /\ dropped = 0) /\
    (success = true ->
     let position := true_div position_ns 1000000000 in
     received = 100 + int_of_float (float_mul position (float_of_int 30)) /\
     dropped = int_of_float (float_mul position one_half)) /\
    (0 <= position_ns -> 100 <= received /\ 0 <= dropped).
Proof.
  intros Hp Hstate Hpos.
  unfold GstreamerPipeline.get_status, call. rewrite Hp. unfold_monad.
  rewrite Hstate. cbn [fst snd the_world]. rewrite Hpos. cbn [fst snd the_world].
  set (position := if success
                   then PyFloat (true_div position_ns GstreamerPipeline.Gst_SECOND)
                   else PyInt 0).
  exists (GstreamerPipeline.with_stats (GstreamerPipeline.simulated_stats position) self),
    (100 + py_int (times_int position 30)),
    (py_int (times_float position one_half)).
  split; [reflexivity|].
  split; [reflexivity|]. split.
  - destruct state; simpl; set_solver.
  - split; [reflexivity|]. split; [|split].
    + intros ->. split; reflexivity.
    + intros ->. split; reflexivity.
    + intros Hnonneg. subst position. destruct success.
      * pose proof (nearest_float_nonneg position_ns GstreamerPipeline.Gst_SECOND
                      Hnonneg eq_refl) as Hposition.
        split.
        -- assert (0 <= py_int (times_int
                                  (PyFloat (true_div position_ns GstreamerPipeline.Gst_SECOND))
                                  30)); [|lia].
           apply int_of_float_nonneg, float_mul_nonneg; [exact Hposition|].
           by apply nearest_float_nonneg.
        -- apply int_of_float_nonneg, float_mul_nonneg; [exact Hposition | done].
      * split; [reflexivity | done].
Qed.
End MoreHandleFacts.

(** ** More on the bus callback *)

Section BusFacts.
Context {R : Runtime}.

(** A broadcast returns, and every connected client is in the trace with a
    send of the message under its timestamp. *)
Lemma broadcast_to_every_client (message : list (string * value)) (g : Globals) :
  exists message' g',
    broadcast_message message g = (Return message', g') /\
    clients g' = clients g /\
    forall c, c ∈ clients g ->
      exists r,
        Sent c (VDict (py_set "timestamp" (VInt (fst (loop_time_ms (the_world g)))) message)) r
        ∈ trace g'.
Proof.
  destruct (decide (clients g = ∅)) as [Hempty|Hne].
  - exists message, g. rewrite broadcast_message_empty by done.
    split; [done|]. split; [done|].
    intros c Hc. rewrite Hempty in Hc. by apply not_elem_of_empty in Hc.
  - destruct (broadcast_message_reaches_all message g Hne)
      as (g' & sends & Hb & Hcl & Htr & _ & Hin).
    cbn zeta in Hb, Hin. eexists _, g'. split; [exact Hb|]. split; [exact Hcl|].
    intros c Hc. destruct (Hin c Hc) as [r Hr]. exists r.
    rewrite Htr. apply elem_of_app. by right.
Qed.

Context {L : EventLoop R}.

(** The two messages that the callback makes besides the error. *)
Lemma schedule_run (message : list (string * value)) (self : GstreamerPipeline.t)
    (g : Globals) :
  bind (GstreamerPipeline.schedule_broadcast message) (fun _ => ret true) (self, g) =
    match get_event_loop (the_world g) with
    | (Raise e, w) =>
        (Raise e, (self, {| clients := clients g; the_world := w; trace := trace g |}))
    | (Return l, w) =>
        (match fst (run_coroutine_threadsafe message l w) with
         | Return _ => Return true
         | Raise e => Raise e
         end,
         (self, {| clients := clients g;
                   the_world := snd (run_coroutine_threadsafe message l w);
                   trace := trace g |}))
    end.
Proof.
  unfold GstreamerPipeline.schedule_broadcast, GstreamerPipeline.on_globals, call.
  unfold_monad. simpl.
  destruct (get_event_loop (the_world g)) as [[l|e] w]; simpl; [|done].
  by destruct (run_coroutine_threadsafe message l w) as [[[]|e] w'].
Qed.

(** X5: where the lookup of the event loop raises, as it does on a thread
    that has no current loop, the callback raises that exception for an
    ERROR, for an end of stream and for a state change of the pipeline
    itself: it does not return [True], and nothing is handed to a loop or
    sent. The world is the one the lookup left. For an ERROR the engine's
    message has been recorded on the handle by then; otherwise the handle
    is as it was. *)
Theorem X5_callback_raises_where_no_loop_is_current
    (self : GstreamerPipeline.t) (g : Globals) (e : exn) (w : world) :
  get_event_loop (the_world g) = (Raise e, w) ->
  (forall err_message debug,
     GstreamerPipeline.bus_callback (MsgError err_message debug) (self, g)
     = (Raise e,
        (GstreamerPipeline.with_error (Some err_message) self,
         {| clients := clients g; the_world := w; trace := trace g |}))) /\
  GstreamerPipeline.bus_callback MsgEOS (self, g)
  = (Raise e, (self, {| clients := clients g; the_world := w; trace := trace g |})) /\
  (forall p old_state new_state pending_state,
     GstreamerPipeline.pipeline self = Some p ->
     GstreamerPipeline.bus_callback
       (MsgStateChanged p old_state new_state pending_state) (self, g)
     = (Raise e, (self, {| clients := clients g; the_world := w; trace := trace g |}))).
Proof.
  intros Hloop. split; [|split].
  - intros err_message debug.
    unfold GstreamerPipeline.bus_callback, GstreamerPipeline.assign.
    unfold bind at 1. cbn [fst snd].
    match goal with
    | |- context [bind (GstreamerPipeline.schedule_broadcast ?m) _ (?s, g)] =>
        rewrite (schedule_run m s g)
    end.
    by rewrite Hloop.
  - unfold GstreamerPipeline.bus_callback. cbn [fst].
    match goal with
    | |- context [bind (GstreamerPipeline.schedule_broadcast ?m) _ (self, g)] =>
        rewrite (schedule_run m self g)
    end.
    by rewrite Hloop.
  - intros p old_state new_state pending_state Hp.
    unfold GstreamerPipeline.bus_callback. cbn [fst].
    rewrite bool_decide_eq_true_2 by (by rewrite Hp).
    match goal with
    | |- context [bind (GstreamerPipeline.schedule_broadcast ?m) _ (self, g)] =>
        rewrite (schedule_run m self g)
    end.
    by rewrite Hloop.
Qed.

(** X6: where the lookup returns a loop, the callback hands one broadcast
    to it and sends nothing itself: at end of stream a
    [pipelineStateChanged] for the pipeline with state ["NULL"] and the
    message "End of stream"; at a state change of the pipeline itself one
    whose state is the name of the new state and whose message names the
    old and the new one, the pending state playing no part. The handle is
    as it was, and [True] is returned once the hand-over has returned. Each
    of these broadcasts, when it runs, sends every connected client the
    message under the clock's timestamp. *)
Theorem X6_state_changes_are_handed_to_the_loop
    (self : GstreamerPipeline.t) (g : Globals) (l : loop) (w : world) :
  get_event_loop (the_world g) = (Return l, w) ->
  let end_of_stream :=
    [("type", VStr "pipelineStateChanged");
     ("payload", VDict [("id", VStr (GstreamerPipeline.id self));
                        ("state", VStr "NULL");
                        ("message", VStr "End of stream")])] in
  let state_changed old_state new_state :=
    [("type", VStr "pipelineStateChanged");
     ("payload",
      VDict [("id", VStr (GstreamerPipeline.id self));
             ("state", VStr (GstreamerPipeline.state_name new_state));
             ("message",
              VStr ("State changed from "
                    ++ GstreamerPipeline.state_name old_state
                    ++ " to " ++ GstreamerPipeline.state_name new_state))])] in
  let handed message :=
    (match fst (run_coroutine_threadsafe message l w) with
     | Return _ => Return true
     | Raise e => Raise e
     end,
     (self, {| clients := clients g;
               the_world := snd (run_coroutine_threadsafe message l w);
               trace := trace g |})) in
  GstreamerPipeline.bus_callback MsgEOS (self, g) = handed end_of_stream /\
  (forall p old_state new_state pending_state,
     GstreamerPipeline.pipeline self = Some p ->
     GstreamerPipeline.bus_callback
       (MsgStateChanged p old_state new_state pending_state) (self, g)
     = handed (state_changed old_state new_state)) /\
  (forall message g0,
     message = end_of_stream \/
     (exists old_state new_state, message = state_changed old_state new_state) ->
     exists message' g0',
       broadcast_message message g0 = (Return message', g0') /\
       clients g0' = clients g0 /\
       forall c, c ∈ clients g0 ->
         exists r,
           Sent c (VDict (message ++ [("timestamp", VInt (fst (loop_time_ms (the_world g0))))]))
             r ∈ trace g0').
Proof.
  intros Hloop end_of_stream state_changed handed. split; [|split].
  - unfold GstreamerPipeline.bus_callback. cbn [fst]. fold end_of_stream.
    rewrite (schedule_run end_of_stream self g). by rewrite Hloop.
  - intros p old_state new_state pending_state Hp.
    unfold GstreamerPipeline.bus_callback. cbn [fst].
    rewrite bool_decide_eq_true_2 by (by rewrite Hp).
    cbv zeta. fold (state_changed old_state new_state).
    rewrite (schedule_run (state_changed old_state new_state) self g). by rewrite Hloop.
  - intros message g0 Hmessage.
    destruct (broadcast_to_every_client message g0) as (m' & g' & Hb & Hcl & Hall).
    exists m', g'. split; [done|]. split; [done|].
    intros c Hc. destruct (Hall c Hc) as [r Hr]. exists r.
    by destruct Hmessage as [->|(old_state & new_state & ->)].
Qed.

(** X7: a state change whose source is not the pipeline itself (one of its
    elements, or anything when the handle has no pipeline) and a message of
    any other type do nothing at all: the callback returns [True] without
    looking up the event loop, and the handle and the globals are as they
    were. *)
Theorem X7_other_bus_messages_do_nothing (self : GstreamerPipeline.t) (g : Globals) :
  (forall src old_state new_state pending_state,
     GstreamerPipeline.pipeline self <> Some src ->
     GstreamerPipeline.bus_callback
       (MsgStateChanged src old_state new_state pending_state) (self, g)
     = (Return true, (self, g))) /\
  GstreamerPipeline.bus_callback MsgOther (self, g) = (Return true, (self, g)).
Proof.
  split.
  - intros src old_state new_state pending_state Hsrc.
    unfold GstreamerPipeline.bus_callback. cbn [fst].
    by rewrite bool_decide_eq_false_2 by congruence.
  - reflexivity.
Qed.
End BusFacts.

(** ** One round of the receive loop *)

Section RoundFacts.
Context {R : Runtime}.

Lemma quiet_answers {A : Type} (websocket : client) (m : M State A) :
  quiet m -> answers websocket m.
Proof.
  intros H st. destruct (H st) as [Hcl Htr]. split; [done|].
  exists []. rewrite app_nil_r. split; [done | by left].
Qed.

Lemma quiet_bind {A B : Type} (m : M State A) (k : A -> M State B) :
  quiet m -> (forall a, quiet (k a)) -> quiet (bind m k).
Proof.
  intros Hm Hk st. unfold bind. specialize (Hm st).
  destruct (m st) as [[a|e] st1]; simpl in *; [|done].
  destruct (Hk a st1) as [Hcl Htr]. destruct Hm as [Hcl1 Htr1].
  by rewrite Hcl, Htr.
Qed.

Lemma quiet_bind_answers {A B : Type} (websocket : client)
    (m : M State A) (k : A -> M State B) :
  quiet m -> (forall a, answers websocket (k a)) -> answers websocket (bind m k).
Proof.
  intros Hm Hk st. unfold bind. specialize (Hm st).
  destruct (m st) as [[a|e] st1]; simpl in *.
  - destruct Hm as [Hcl1 Htr1].
    destruct (Hk a st1) as [Hcl (new & Htr & Hnew)].
    split; [by rewrite Hcl|]. exists new. by rewrite Htr, Htr1.
  - destruct Hm as [Hcl1 Htr1]. split; [done|].
    exists []. rewrite app_nil_r. split; [done | by left].
Qed.

Lemma quiet_ret {A : Type} (a : A) : quiet (ret a : M State A).
Proof. by intros st. Qed.

Lemma quiet_update_pipelines f : quiet (update_pipelines f).
Proof. by intros st. Qed.

Lemma quiet_lift_now : quiet (lift now_ms).
Proof.
  intros st. unfold lift, now_ms.
  by destruct (loop_time_ms (the_world (globals st))).
Qed.

Lemma quiet_lift {A : Type} (m : M Globals A) :
  (forall g, clients (snd (m g)) = clients g /\ trace (snd (m g)) = trace g) ->
  quiet (lift m).
Proof.
  intros H st. unfold lift. specialize (H (globals st)).
  by destruct (m (globals st)).
Qed.

Lemma quiet_invoke {A : Type} (pipeline_id : string)
    (method : GstreamerPipeline.t -> M Globals (GstreamerPipeline.t * A)) :
  (forall self g, clients (snd (method self g)) = clients g /\
                  trace (snd (method self g)) = trace g) ->
  quiet (invoke pipeline_id method).
Proof.
  intros H st. unfold invoke.
  destruct (py_get pipeline_id (pipelines st)) as [self|]; [|done].
  specialize (H self (globals st)).
  by destruct (method self (globals st)) as [[[self' a]|e] g].
Qed.

Lemma quiet_statuses (ids : list string) : quiet (statuses ids).
Proof.
  induction ids as [|pipeline_id ids IH]; simpl; [apply quiet_ret|].
  apply quiet_bind; [apply quiet_invoke, get_status_frame|].
  intros status. apply quiet_bind; [exact IH|]. intros rest. apply quiet_ret.
Qed.

Lemma answers_lift_send (websocket : client) (m : value) :
  answers websocket (lift (send websocket m)).
Proof.
  intros st. unfold lift, send, send_to. unfold_monad.
  destruct (ws_send websocket m (the_world (globals st))) as [r w].
  destruct r; simpl; (split; [done|]); eexists; (split; [reflexivity|]); right; eauto.
Qed.

Lemma answers_lift_reply (websocket : client) (type : string) (payload : value) :
  answers websocket (lift (reply websocket type payload)).
Proof.
  intros st. unfold lift.
  destruct (reply_run websocket type payload (globals st)) as (r & g' & Hrun & Hcl & Htr & _).
  cbn zeta in Hrun, Htr. rewrite Hrun. simpl. split; [done|].
  eexists. split; [exact Htr|]. right. eauto.
Qed.

Lemma answers_transition (websocket : client) (pipeline_id : option string)
    (method : GstreamerPipeline.t ->
              M Globals (GstreamerPipeline.t * list (string * value))) :
  (forall self g, clients (snd (method self g)) = clients g /\
                  trace (snd (method self g)) = trace g) ->
  answers websocket (transition websocket pipeline_id method).
Proof.
  intros H st. unfold transition. destruct (unknown pipeline_id st).
  - apply answers_lift_reply.
  - revert st. apply quiet_bind_answers; [by apply quiet_invoke|].
    intros result. destruct (py_contains "errorCode" result); apply answers_lift_reply.
Qed.

Lemma answers_dispatch (websocket : client) (c : command) :
  answers websocket (dispatch websocket c).
Proof.
  destruct c as [|payload|pipeline_id|pipeline_id|pipeline_id| |ty]; simpl.
  - intros st. unfold lift, now_ms, send, send_to. unfold_monad.
    destruct (loop_time_ms (the_world (globals st))) as [now w1]. simpl.
    match goal with
    | |- context [ws_send websocket ?m w1] => destruct (ws_send websocket m w1) as [r w2]
    end.
    destruct r; simpl; (split; [done|]); eexists; (split; [reflexivity|]); right; eauto.
  - apply quiet_bind_answers; [apply quiet_lift_now|]. intros now.
    destruct (elements_of payload) as [|el els]; [apply answers_lift_reply|].
    apply quiet_bind_answers; [apply quiet_lift, create_frame|].
    intros [pipeline result]. destruct (py_contains "errorCode" result).
    + apply answers_lift_reply.
    + apply quiet_bind_answers; [apply quiet_update_pipelines|].
      intros _. apply answers_lift_reply.
  - apply answers_transition, start_frame.
  - apply answers_transition, stop_frame.
  - intros st. destruct (unknown pipeline_id st); [apply answers_lift_reply|].
    revert st. apply quiet_bind_answers; [apply quiet_invoke, delete_frame|].
    intros result. apply quiet_bind_answers; [apply quiet_update_pipelines|].
    intros _. apply answers_lift_reply.
  - intros st. unfold pipelines_list. revert st.
    intros st. generalize (map fst (pipelines st)). intros ids. revert st.
    apply quiet_bind_answers; [apply quiet_statuses|].
    intros l. apply answers_lift_reply.
  - apply quiet_answers, quiet_ret.
Qed.

(** X8: a round of the receive loop never raises, whatever the message and
    whatever the engine and the transport do; it connects and disconnects
    nobody; and it sends at most one message, to the client the round
    belongs to: no command is answered to another client, none is
    broadcast. *)
Theorem X8_a_round_answers_its_sender_only
    (websocket : client) (message : incoming) (st : State) :
  exists st' new,
    handle_message websocket message st = (Return tt, st') /\
    clients (globals st') = clients (globals st) /\
    trace (globals st') = (trace (globals st) ++ new)%list /\
    (new = [] \/ exists msg r, new = [Sent websocket msg r]).
Proof.
  destruct message as [text|c]; simpl.
  - exists st, []. rewrite app_nil_r. repeat split; try done. by left.
  - unfold try_except.
    destruct (answers_dispatch websocket c st) as [Hcl (new & Htr & Hnew)].
    destruct (dispatch websocket c st) as [[[]|e] st1]; simpl in *;
      exists st1, new; done.
Qed.
End RoundFacts.

(** ** What the registry keeps *)

Section KeptByTheRegistry.
Context {R : Runtime}.

Lemma py_set_Forall {V : Type} (P : string * V -> Prop) (k : string) (v : V)
    (d : list (string * V)) :
  Forall P d -> P (k, v) -> Forall P (py_set k v d).
Proof.
  intros Hd Hv. induction Hd as [|[k' v'] d Hkv Hd IH]; simpl.
  - by constructor.
  - destruct (String.eqb k k') eqn:E.
    + apply String.eqb_eq in E. subst k'. by constructor.
    + by constructor.
Qed.

Lemma py_del_Forall {V : Type} (P : string * V -> Prop) (k : string)
    (d : list (string * V)) :
  Forall P d -> Forall P (py_del k d).
Proof.
  induction 1 as [|[k' v'] d Hkv Hd IH]; simpl; [done|].
  destruct (String.eqb k k'); [done | by constructor].
Qed.

Lemma py_get_Forall {V : Type} (P : string * V -> Prop) (k : string) (v : V)
    (d : list (string * V)) :
  Forall P d -> py_get k d = Some v -> P (k, v).
Proof.
  induction 1 as [|[k' v'] d Hkv Hd IH]; simpl; [discriminate|].
  destruct (String.eqb k k') eqn:E; [|exact IH].
  apply String.eqb_eq in E. subst k'. by intros [= <-].
Qed.

Lemma py_del_set {V : Type} (k : string) (v : V) (d : list (string * V)) :
  py_del k (py_set k v d) = py_del k d.
Proof.
  induction d as [|[k' v'] d IH]; simpl.
  - by rewrite String.eqb_refl.
  - destruct (String.eqb k k') eqn:E; simpl; rewrite E; [done | by rewrite IH].
Qed.

Lemma py_set_same {V : Type} (k : string) (v : V) (d : list (string * V)) :
  py_get k d = Some v -> py_set k v d = d.
Proof.
  induction d as [|[k' v'] d IH]; simpl; [discriminate|].
  destruct (String.eqb k k') eqn:E.
  - by intros [= ->].
  - intros H. by rewrite IH.
Qed.

Lemma py_set_absent {V : Type} (k : string) (v : V) (d : list (string * V)) :
  py_contains k d = false -> py_set k v d = (d ++ [(k, v)])%list.
Proof.
  induction d as [|[k' v'] d IH]; simpl; [done|].
  destruct (String.eqb k k'); [discriminate|]. intros H. by rewrite IH.
Qed.

Lemma sound_split (st : State) :
  Forall sound (pipelines st) <->
  registered_under_own_id st /\ registered_with_pipeline st.
Proof.
  unfold registered_under_own_id, registered_with_pipeline, sound.
  rewrite <- Forall_and. done.
Qed.

(** The methods that stay on a registered handle keep its id and its
    engine pipeline. *)
Lemma start_keeps (self self' : GstreamerPipeline.t) r (g g' : Globals) :
  GstreamerPipeline.start self g = (Return (self', r), g') -> self' = self.
Proof.
  unfold GstreamerPipeline.start, call. unfold_monad.
  destruct (GstreamerPipeline.pipeline self) as [p|]; [|by intros [= <- <- <-]].
  destruct (set_state p PLAYING (the_world g)) as [[rc|e] w]; simpl; [|discriminate].
  destruct (StateChangeReturn_eqb rc FAILURE); by intros [= <- <- <-].
Qed.

Lemma stop_keeps (self self' : GstreamerPipeline.t) r (g g' : Globals) :
  GstreamerPipeline.stop self g = (Return (self', r), g') -> self' = self.
Proof.
  unfold GstreamerPipeline.stop, call. unfold_monad.
  destruct (GstreamerPipeline.pipeline self) as [p|]; [|by intros [= <- <- <-]].
  destruct (set_state p PAUSED (the_world g)) as [[rc|e] w]; simpl; [|discriminate].
  destruct (StateChangeReturn_eqb rc FAILURE); by intros [= <- <- <-].
Qed.

Lemma get_status_keeps (self self' : GstreamerPipeline.t) r (g g' : Globals) :
  GstreamerPipeline.get_status self g = (Return (self', r), g') ->
  GstreamerPipeline.id self' = GstreamerPipeline.id self /\
  GstreamerPipeline.pipeline self' = GstreamerPipeline.pipeline self /\
  py_get "id" r = Some (VStr (GstreamerPipeline.id self)).
Proof.
  unfold GstreamerPipeline.get_status, call. unfold_monad.
  destruct (GstreamerPipeline.pipeline self) as [p|] eqn:Hp;
    [|intros [= <- <- <-]; repeat split; done].
  destruct (get_state p (the_world g)) as [[s|e] w]; simpl; [|discriminate].
  destruct (query_position p w) as [[[ok pos]|e] w2]; simpl; [|discriminate].
  intros [= <- <- <-]. repeat split; done.
Qed.

Lemma create_keeps (self self' : GstreamerPipeline.t) r (g g' : Globals) :
  GstreamerPipeline.create self g = (Return (self', r), g') ->
  GstreamerPipeline.id self' = GstreamerPipeline.id self /\
  (py_contains "errorCode" r = false -> GstreamerPipeline.pipeline self' <> None).
Proof.
  unfold GstreamerPipeline.create, call. unfold_monad. simpl.
  destruct (parse_launch _ _) as [[p|e] w1]; simpl; [|by intros [= <- <- <-]].
  destruct (set_name _ _ _) as [[[]|e] w2]; simpl; [|by intros [= <- <- <-]].
  destruct (get_bus _ _) as [[b|e] w3]; simpl; [|by intros [= <- <- <-]].
  destruct (add_watch _ _) as [[watch_id|e] w4]; simpl; by intros [= <- <- <-].
Qed.

Lemma invoke_sound {A : Type} (pipeline_id : string)
    (method : GstreamerPipeline.t -> M Globals (GstreamerPipeline.t * A)) (st : State) :
  (forall self self' a g g',
     method self g = (Return (self', a), g') ->
     GstreamerPipeline.id self' = GstreamerPipeline.id self /\
     GstreamerPipeline.pipeline self' = GstreamerPipeline.pipeline self) ->
  Forall sound (pipelines st) ->
  Forall sound (pipelines (snd (invoke pipeline_id method st))).
Proof.
  intros Hkeeps Hst. unfold invoke.
  destruct (py_get pipeline_id (pipelines st)) as [self|] eqn:Hreg; [|done].
  destruct (method self (globals st)) as [[[self' a]|e] g] eqn:Hrun; simpl; [|done].
  apply py_set_Forall; [done|].
  destruct (Hkeeps _ _ _ _ _ Hrun) as [Hid Hp].
  destruct (py_get_Forall _ _ _ _ Hst Hreg) as [Hid0 Hp0].
  unfold sound. simpl in *. split; congruence.
Qed.

Lemma statuses_sound (ids : list string) (st : State) :
  Forall sound (pipelines st) -> Forall sound (pipelines (snd (statuses ids st))).
Proof.
  revert st. induction ids as [|pipeline_id ids IH]; intros st H; simpl; [done|].
  unfold_monad.
  assert (H1 : Forall sound
                 (pipelines (snd (invoke pipeline_id GstreamerPipeline.get_status st)))).
  { apply invoke_sound; [|done]. intros self self' a g g' Hrun.
    destruct (get_status_keeps _ _ _ _ _ Hrun) as (? & ? & _). done. }
  destruct (invoke pipeline_id GstreamerPipeline.get_status st) as [[status|e] st1];
    simpl in *; [|done].
  pose proof (IH st1 H1) as H2.
  by destruct (statuses ids st1) as [[rest|e] st2].
Qed.

Lemma transition_sound (websocket : client) (pipeline_id : option string)
    (method : GstreamerPipeline.t ->
              M Globals (GstreamerPipeline.t * list (string * value))) (st : State) :
  (forall self self' a g g', method self g = (Return (self', a), g') -> self' = self) ->
  Forall sound (pipelines st) ->
  Forall sound (pipelines (snd (transition websocket pipeline_id method st))).
Proof.
  intros Hkeeps H. unfold transition.
  destruct (unknown pipeline_id st); [by rewrite lift_pipelines|].
  unfold_monad.
  assert (H1 : Forall sound
                 (pipelines (snd (invoke (default "" pipeline_id) method st)))).
  { apply invoke_sound; [|done]. intros self self' a g g' Hrun.
    by rewrite (Hkeeps _ _ _ _ _ Hrun). }
  destruct (invoke (default "" pipeline_id) method st) as [[result|e] st1];
    simpl in *; [|done].
  destruct (py_contains "errorCode" result); by rewrite lift_pipelines.
Qed.

Lemma handle_message_sound (websocket : client) (message : incoming) (st : State) :
  Forall sound (pipelines st) ->
  Forall sound (pipelines (snd (handle_message websocket message st))).
Proof.
  intros H. destruct message as [text|c]; simpl; [done|].
  unfold try_except.
  assert (Hd : Forall sound (pipelines (snd (dispatch websocket c st)))).
  { destruct c as [|payload|pipeline_id|pipeline_id|pipeline_id| |ty]; simpl.
    - by rewrite lift_pipelines.
    - unfold_monad.
      pose proof (lift_pipelines now_ms st) as Hnow.
      destruct (lift now_ms st) as [[now|e] st0]; simpl in *; [|by rewrite Hnow].
      destruct (elements_of payload) as [|el els]; [by rewrite lift_pipelines, Hnow|].
      match goal with
      | |- context [lift (GstreamerPipeline.create ?self) st0] =>
          pose proof (create_keeps self) as Hkeeps;
          unfold lift;
          destruct (GstreamerPipeline.create self (globals st0))
            as [[[new result]|e] g1] eqn:Hcreate
      end; simpl; [|by rewrite Hnow].
      destruct (Hkeeps _ _ _ _ Hcreate) as [Hid Hpipe].
      destruct (py_contains "errorCode" result) eqn:Herr.
      + match goal with
        | |- context [reply ?ws ?ty ?pl ?g] => destruct (reply ws ty pl g)
        end.
        simpl. by rewrite Hnow.
      + unfold update_pipelines. simpl.
        match goal with
        | |- context [reply ?ws ?ty ?pl ?g] => destruct (reply ws ty pl g)
        end.
        simpl. rewrite Hnow. apply py_set_Forall; [done|]. simpl. split; [done|].
        by apply Hpipe.
    - apply transition_sound; [|done]. intros ? ? ? ? ?. apply start_keeps.
    - apply transition_sound; [|done]. intros ? ? ? ? ?. apply stop_keeps.
    - destruct (unknown pipeline_id st); [by rewrite lift_pipelines|].
      unfold_monad. unfold invoke.
      destruct (py_get (default "" pipeline_id) (pipelines st)) as [self|]; [|done].
      destruct (GstreamerPipeline.delete self (globals st)) as [[[self1 result]|e] g1];
        simpl; [|done].
      unfold lift. simpl.
      match goal with
      | |- context [reply ?ws ?ty ?pl ?g] => destruct (reply ws ty pl g)
      end.
      simpl. rewrite py_del_set. by apply py_del_Forall.
    - unfold pipelines_list. unfold_monad.
      pose proof (statuses_sound (map fst (pipelines st)) st H) as H1.
      destruct (statuses (map fst (pipelines st)) st) as [[l|e] st1]; simpl in *; [|done].
      by rewrite lift_pipelines.
    - done. }
  by destruct (dispatch websocket c st) as [[[]|e] st1].
Qed.

Lemma stats_update_keeps (item : string * GstreamerPipeline.t) (st : State) :
  (unique_ids st -> unique_ids (snd (stats_update item st))) /\
  (Forall sound (pipelines st) -> Forall sound (pipelines (snd (stats_update item st)))) /\
  map fst (pipelines (snd (stats_update item st))) = map fst (pipelines st) /\
  clients (globals (snd (stats_update item st))) = clients (globals st).
Proof.
  unfold stats_update. unfold_monad.
  pose proof (invoke_unique_ids (fst item) GstreamerPipeline.get_status st) as Hu.
  pose proof (invoke_sound (fst item) GstreamerPipeline.get_status st) as Hs.
  pose proof (quiet_invoke (fst item) GstreamerPipeline.get_status get_status_frame st)
    as [Hcl _].
  assert (Hk : map fst (pipelines (snd (invoke (fst item) GstreamerPipeline.get_status st)))
               = map fst (pipelines st)).
  { unfold invoke.
    destruct (py_get (fst item) (pipelines st)) as [self|] eqn:Hreg; [|done].
    destruct (GstreamerPipeline.get_status self (globals st)) as [[[self' a]|e] g];
      simpl; [|done].
    apply py_set_keys, py_contains_get. eauto. }
  assert (Hs' : Forall sound (pipelines st) ->
                Forall sound
                  (pipelines (snd (invoke (fst item) GstreamerPipeline.get_status st)))).
  { apply Hs. intros self self' a g g' Hrun.
    destruct (get_status_keeps _ _ _ _ _ Hrun) as (? & ? & _). done. }
  destruct (invoke (fst item) GstreamerPipeline.get_status st) as [[status|e] st1];
    simpl in *; [|done].
  destruct (is_str (py_get "state" status) "PLAYING"); [|done].
  unfold lift.
  match goal with
  | |- context [broadcast_message ?m ?g] =>
      destruct (broadcast_message_returns m g) as (m' & g' & sends & Hb & Hcl' & _)
  end.
  rewrite Hb. simpl. by rewrite Hcl'.
Qed.

Lemma stats_pass_keeps (items : list (string * GstreamerPipeline.t)) (st : State) :
  (unique_ids st -> unique_ids (snd (for_each items stats_update st))) /\
  (Forall sound (pipelines st) ->
   Forall sound (pipelines (snd (for_each items stats_update st)))) /\
  map fst (pipelines (snd (for_each items stats_update st))) = map fst (pipelines st) /\
  clients (globals (snd (for_each items stats_update st))) = clients (globals st).
Proof.
  revert st. induction items as [|item items IH]; intros st; simpl; [done|].
  unfold_monad.
  destruct (stats_update_keeps item st) as (Hu & Hs & Hk & Hcl).
  destruct (stats_update item st) as [[[]|e] st1]; simpl in *; [|done].
  destruct (IH st1) as (Hu1 & Hs1 & Hk1 & Hcl1).
  split; [auto|]. split; [auto|]. split; congruence.
Qed.

(** X9: the registry keeps three things through every round of every
    receive loop and every turn of the polling loop: an id is registered
    once; a handle is registered under its own id; and a registered handle
    has its engine pipeline. So no command that reaches a registered handle
    can be answered [not-created]. *)
Theorem X9_registry_invariants_are_kept (st : State) :
  unique_ids st -> registered_under_own_id st -> registered_with_pipeline st ->
  (forall websocket message,
     let st' := snd (handle_message websocket message st) in
     unique_ids st' /\ registered_under_own_id st' /\ registered_with_pipeline st') /\
  (let st' := snd (stats_iteration st) in
   unique_ids st' /\ registered_under_own_id st' /\ registered_with_pipeline st').
Proof.
  intros Hu Hid Hp.
  assert (Hs : Forall sound (pipelines st)) by (by apply sound_split).
  split.
  - intros websocket message. cbn zeta.
    split; [by apply handle_message_unique_ids|].
    by apply sound_split, handle_message_sound.
  - cbn zeta. unfold stats_iteration, try_except. unfold_monad.
    destruct (stats_pass_keeps (pipelines st) st) as (Hu1 & Hs1 & _).
    destruct (for_each (pipelines st) stats_update st) as [[[]|e] st1]; simpl in *;
      (split; [by apply Hu1 | by apply sound_split, Hs1]).
Qed.
End KeptByTheRegistry.

(** ** The commands, one by one *)

Section CommandFacts.
Context {R : Runtime}.

(** What a [createPipeline] with at least one element does, whatever its id. *)
Lemma create_pipeline_run (websocket : client) (payload : create_payload) (st : State) :
  elements_of payload <> [] ->
  let now := fst (loop_time_ms (the_world (globals st))) in
  let pipeline_id := default ("pipeline-" ++ str_of_int now) (cp_id payload) in
  exists new result g1 st' r,
    GstreamerPipeline.create
      (GstreamerPipeline.init pipeline_id
         (default ("Pipeline " ++ pipeline_id) (cp_description payload))
         (elements_of payload))
      (snd (now_ms (globals st)))
    = (Return (new, result), g1) /\
    handle_message websocket (parsed (createPipeline payload)) st = (Return tt, st') /\
    if py_contains "errorCode" result then
      pipelines st' = pipelines st /\
      trace (globals st') =
        (trace (globals st) ++
         [Sent websocket
            (envelope "pipelineError" (VDict result)
               (fst (loop_time_ms (the_world g1)))) r])%list
    else
      pipelines st' = py_set pipeline_id new (pipelines st) /\
      trace (globals st') =
        (trace (globals st) ++
         [Sent websocket
            (envelope "pipelineCreated" (VDict [("pipeline", VDict result)])
               (fst (loop_time_ms (the_world g1)))) r])%list.
Proof.
  intros Hne. cbn zeta.
  unfold handle_message, dispatch.
  destruct (elements_of payload) as [|el els] eqn:Hels; [done|].
  unfold lift at 1. unfold_monad.
  pose proof (call_now := eq_refl (now_ms (globals st))).
  unfold now_ms at 2 in call_now. unfold now_ms at 1.
  destruct (loop_time_ms (the_world (globals st))) as [now w0].
  rewrite call_now. cbn [snd fst]. clear call_now.
  unfold lift at 1. cbn [globals pipelines].
  match goal with
  | |- context [GstreamerPipeline.create ?self ?g] =>
      destruct (create_returns self g) as (new & result & g1 & Hcreate & _ & Htr & _)
  end.
  cbn [trace] in Htr. rewrite Hcreate.
  exists new, result, g1.
  destruct (py_contains "errorCode" result) eqn:Herr.
  - unfold lift. cbn [globals pipelines].
    destruct (reply_run websocket "pipelineError" (VDict result) g1)
      as (r & g' & Hrun & _ & Htr' & _).
    cbn zeta in Hrun, Htr'. rewrite Hrun.
    exists {| pipelines := pipelines st; globals := g' |}, r.
    split; [done|]. split; [by destruct r|]. split; [done|].
    cbn [globals]. by rewrite Htr', Htr.
  - unfold update_pipelines, lift. cbn [globals pipelines].
    destruct (reply_run websocket "pipelineCreated"
                (VDict [("pipeline", VDict result)]) g1)
      as (r & g' & Hrun & _ & Htr' & _).
    cbn zeta in Hrun, Htr'. rewrite Hrun.
    eexists {| pipelines := py_set _ new (pipelines st); globals := g' |}, r.
    split; [done|]. split; [by destruct r|]. cbn [globals pipelines].
    split; [done|]. by rewrite Htr', Htr.
Qed.

(** X10: a [createPipeline] with at least one element and an id that is not
    registered (the id of the payload or, without one, ["pipeline-"] and the
    clock's milliseconds) runs [create] on a new handle for that id, with
    the description of the payload or ["Pipeline "] and the id, right after
    the clock was read. When what [create] returns has no error code, the
    handle it returns goes last in the registry, under that id and holding
    its engine pipeline, and the sender is answered [pipelineCreated] with
    the snapshot that [create] returned, in state NULL; when it has one, it
    is ["creation-failed"], the sender is answered with that error and the
    registry is as it was. The answer carries the time of the clock after
    [create]. *)
Theorem X10_create_registers_last
    (websocket : client) (payload : create_payload) (st : State) :
  elements_of payload <> [] ->
  let now := fst (loop_time_ms (the_world (globals st))) in
  let pipeline_id := default ("pipeline-" ++ str_of_int now) (cp_id payload) in
  py_contains pipeline_id (pipelines st) = false ->
  exists new result g1 st' r,
    GstreamerPipeline.create
      (GstreamerPipeline.init pipeline_id
         (default ("Pipeline " ++ pipeline_id) (cp_description payload))
         (elements_of payload))
      (snd (now_ms (globals st)))
    = (Return (new, result), g1) /\
    handle_message websocket (parsed (createPipeline payload)) st = (Return tt, st') /\
    if py_contains "errorCode" result then
      pipelines st' = pipelines st /\
      py_get "errorCode" result = Some (VStr "creation-failed") /\
      trace (globals st') =
        (trace (globals st) ++
         [Sent websocket
            (envelope "pipelineError" (VDict result)
               (fst (loop_time_ms (the_world g1)))) r])%list
    else
      pipelines st' = (pipelines st ++ [(pipeline_id, new)])%list /\
      GstreamerPipeline.id new = pipeline_id /\
      GstreamerPipeline.pipeline new <> None /\
      py_get "id" result = Some (VStr pipeline_id) /\
      py_get "state" result = Some (VStr "NULL") /\
      trace (globals st') =
        (trace (globals st) ++
         [Sent websocket
            (envelope "pipelineCreated" (VDict [("pipeline", VDict result)])
               (fst (loop_time_ms (the_world g1)))) r])%list.
Proof.
  intros Hne now pipeline_id Hfresh.
  destruct (create_pipeline_run websocket payload st Hne)
    as (new & result & g1 & st' & r & Hcreate & Hrun & Hcases).
  fold now in Hcreate, Hcases. fold pipeline_id in Hcreate, Hcases.
  exists new, result, g1, st', r.
  split; [exact Hcreate|]. split; [exact Hrun|].
  destruct (create_keeps _ _ _ _ _ Hcreate) as [Hid Hpipe].
  match type of Hcreate with
  | GstreamerPipeline.create ?self ?g = _ =>
      destruct (create_returns self g) as (new' & result' & g1' & Hcreate' & _ & _ & Hcode);
      rewrite Hcreate in Hcreate'; injection Hcreate' as <- <- <-
  end.
  destruct (py_contains "errorCode" result) eqn:Herr.
  - destruct Hcases as [Hreg Htr]. split; [done|]. split; [by apply Hcode | done].
  - destruct Hcases as [Hreg Htr].
    split; [by rewrite Hreg, py_set_absent|]. split; [exact Hid|].
    split; [by apply Hpipe|].
    cut (py_get "id" result = Some (VStr pipeline_id) /\
         py_get "state" result = Some (VStr "NULL")); [by intros [? ?]|].
    revert Hcreate Herr. clear.
    unfold GstreamerPipeline.create, call. unfold_monad. simpl.
    destruct (parse_launch _ _) as [[p|e] w1]; simpl;
      [|intros [= <- <- <-]; discriminate].
    destruct (set_name _ _ _) as [[[]|e] w2]; simpl;
      [|intros [= <- <- <-]; discriminate].
    destruct (get_bus _ _) as [[b|e] w3]; simpl;
      [|intros [= <- <- <-]; discriminate].
    destruct (add_watch _ _) as [[watch_id|e] w4]; simpl;
      [|intros [= <- <- <-]; discriminate].
    intros [= <- <- <-] _. split; reflexivity.
Qed.

(** The answer to a command with an id that Python takes for false. *)
Lemma unknown_falsy (pipeline_id : option string) (st : State) :
  falsy pipeline_id = true -> unknown pipeline_id st = true.
Proof. intros H. unfold unknown. by rewrite H. Qed.

(** X11: a [startPipeline], [stopPipeline] or [deletePipeline] without an
    id, or with the empty string for one, is answered [not-found] whatever
    the registry holds, and changes nothing in it. So a pipeline that was
    created with the empty id stays registered where no command can reach
    it. *)
Theorem X11_empty_id_is_never_found
    (websocket : client) (pipeline_id : option string) (c : command) (st : State) :
  pipeline_id = None \/ pipeline_id = Some "" ->
  c ∈ [startPipeline pipeline_id; stopPipeline pipeline_id; deletePipeline pipeline_id] ->
  exists st' r,
    handle_message websocket (parsed c) st = (Return tt, st') /\
    pipelines st' = pipelines st /\
    trace (globals st') =
      (trace (globals st) ++
       [Sent websocket
          (envelope "pipelineError"
             (VDict [("id", GstreamerPipeline.opt_str pipeline_id);
                     ("errorCode", VStr "not-found");
                     ("errorMessage", VStr "Pipeline not found")])
             (fst (loop_time_ms (the_world (globals st))))) r])%list.
Proof.
  intros Hfalsy Hc.
  assert (Hunknown : unknown pipeline_id st = true).
  { apply unknown_falsy. by destruct Hfalsy as [-> | ->]. }
  destruct (not_found_run websocket pipeline_id st) as (r & g' & Hrun & _ & Htr).
  exists {| pipelines := pipelines st; globals := g' |}, r.
  split; [|split; [done | exact Htr]].
  rewrite <- Hrun. unfold handle_message, try_except.
  repeat (apply elem_of_cons in Hc as [->|Hc]);
    [| | | by apply elem_of_nil in Hc];
    unfold dispatch, transition; by rewrite Hunknown.
Qed.

Lemma known_registered (pipeline_id : string) (self : GstreamerPipeline.t) (st : State) :
  pipeline_id <> "" ->
  py_get pipeline_id (pipelines st) = Some self ->
  unknown (Some pipeline_id) st = false.
Proof.
  intros Hid Hreg. unfold unknown. cbn [falsy default].
  apply String.eqb_neq in Hid. rewrite Hid. cbn [orb].
  apply negb_false_iff, py_contains_get. eauto.
Qed.

(** X12: when the engine raises inside [start], [stop] or [delete] of a
    registered handle, the command is dropped in silence: the round
    returns, the sender is sent nothing, not even an error, and the handle
    stays registered as it was, after a failed [deletePipeline] too. *)
Theorem X12_engine_exception_leaves_no_answer
    (websocket : client) (pipeline_id : string) (self : GstreamerPipeline.t)
    (st : State) (e : exn) (g1 : Globals) :
  pipeline_id <> "" ->
  py_get pipeline_id (pipelines st) = Some self ->
  (GstreamerPipeline.start self (globals st) = (Raise e, g1) ->
   handle_message websocket (parsed (startPipeline (Some pipeline_id))) st
   = (Return tt, {| pipelines := pipelines st; globals := g1 |}) /\
   trace g1 = trace (globals st)) /\
  (GstreamerPipeline.stop self (globals st) = (Raise e, g1) ->
   handle_message websocket (parsed (stopPipeline (Some pipeline_id))) st
   = (Return tt, {| pipelines := pipelines st; globals := g1 |}) /\
   trace g1 = trace (globals st)) /\
  (GstreamerPipeline.delete self (globals st) = (Raise e, g1) ->
   handle_message websocket (parsed (deletePipeline (Some pipeline_id))) st
   = (Return tt, {| pipelines := pipelines st; globals := g1 |}) /\
   trace g1 = trace (globals st)).
Proof.
  intros Hid Hreg.
  pose proof (known_registered pipeline_id self st Hid Hreg) as Hknown.
  split; [|split]; intros Hraise.
  - pose proof (start_frame self (globals st)) as [_ Htr]. rewrite Hraise in Htr.
    split; [|exact Htr].
    unfold handle_message, dispatch, transition. unfold_monad. rewrite Hknown.
    change (default "" (Some pipeline_id)) with pipeline_id.
    by rewrite (invoke_registered pipeline_id self _ st Hreg), Hraise.
  - pose proof (stop_frame self (globals st)) as [_ Htr]. rewrite Hraise in Htr.
    split; [|exact Htr].
    unfold handle_message, dispatch, transition. unfold_monad. rewrite Hknown.
    change (default "" (Some pipeline_id)) with pipeline_id.
    by rewrite (invoke_registered pipeline_id self _ st Hreg), Hraise.
  - pose proof (delete_frame self (globals st)) as [_ Htr]. rewrite Hraise in Htr.
    split; [|exact Htr].
    unfold handle_message, dispatch. unfold_monad. rewrite Hknown.
    change (default "" (Some pipeline_id)) with pipeline_id.
    by rewrite (invoke_registered pipeline_id self _ st Hreg), Hraise.
Qed.
End CommandFacts.

Section MoreCommandFacts.
Context {R : Runtime}.

(** X13: [startPipeline] and [stopPipeline] on a registered handle ask the
    engine for PLAYING and for PAUSED, and the answer to the sender follows
    the engine's: on FAILURE a [pipelineError] with [start-failed] or
    [stop-failed], on anything else a [pipelineStateChanged] with the state
    that was asked for, which the pipeline need not have reached. The
    registry is as it was. *)
Theorem X13_start_and_stop_answer_as_the_engine_does
    (websocket : client) (pipeline_id : string) (self : GstreamerPipeline.t)
    (p : handle) (st : State) (rc : StateChangeReturn) (w' : world) :
  pipeline_id <> "" ->
  py_get pipeline_id (pipelines st) = Some self ->
  GstreamerPipeline.pipeline self = Some p ->
  (set_state p PLAYING (the_world (globals st)) = (Return rc, w') ->
   exists st' r,
     handle_message websocket (parsed (startPipeline (Some pipeline_id))) st
     = (Return tt, st') /\
     pipelines st' = pipelines st /\
     trace (globals st') =
       (trace (globals st) ++
        [Sent websocket
           (if StateChangeReturn_eqb rc FAILURE then
              envelope "pipelineError"
                (VDict [("id", VStr (GstreamerPipeline.id self));
                        ("errorCode", VStr "start-failed");
                        ("errorMessage", VStr "Failed to start pipeline")])
                (fst (loop_time_ms w'))
            else
              envelope "pipelineStateChanged"
                (VDict [("id", VStr (GstreamerPipeline.id self));
                        ("state", VStr "PLAYING");
                        ("message", VStr "Pipeline started")])
                (fst (loop_time_ms w'))) r])%list) /\
  (set_state p PAUSED (the_world (globals st)) = (Return rc, w') ->
   exists st' r,
     handle_message websocket (parsed (stopPipeline (Some pipeline_id))) st
     = (Return tt, st') /\
     pipelines st' = pipelines st /\
     trace (globals st') =
       (trace (globals st) ++
        [Sent websocket
           (if StateChangeReturn_eqb rc FAILURE then
              envelope "pipelineError"
                (VDict [("id", VStr (GstreamerPipeline.id self));
                        ("errorCode", VStr "stop-failed");
                        ("errorMessage", VStr "Failed to pause pipeline")])
                (fst (loop_time_ms w'))
            else
              envelope "pipelineStateChanged"
                (VDict [("id", VStr (GstreamerPipeline.id self));
                        ("state", VStr "PAUSED");
                        ("message", VStr "Pipeline paused")])
                (fst (loop_time_ms w'))) r])%list).
Proof.
  intros Hid Hreg Hp.
  pose proof (known_registered pipeline_id self st Hid Hreg) as Hknown.
  split; intros Hset.
  - unfold handle_message, dispatch, transition. unfold_monad. rewrite Hknown.
    change (default "" (Some pipeline_id)) with pipeline_id.
    rewrite (invoke_registered pipeline_id self _ st Hreg).
    unfold GstreamerPipeline.start, call. rewrite Hp. unfold_monad. rewrite Hset.
    cbv beta iota.
    destruct (StateChangeReturn_eqb rc FAILURE); cbv beta iota;
      rewrite (py_set_same _ _ _ Hreg);
      cbn [py_contains String.eqb Ascii.eqb Bool.eqb];
      unfold lift; cbn [globals pipelines];
      match goal with
      | |- context [reply websocket ?ty ?pl ?g] =>
          destruct (reply_run websocket ty pl g) as (r & g' & Hrun & _ & Htr & _)
      end;
      cbn zeta in Hrun, Htr; cbn [the_world trace] in Hrun, Htr; rewrite Hrun;
      exists {| pipelines := pipelines st; globals := g' |}, r;
      (split; [by destruct r|]); split; done.
  - unfold handle_message, dispatch, transition. unfold_monad. rewrite Hknown.
    change (default "" (Some pipeline_id)) with pipeline_id.
    rewrite (invoke_registered pipeline_id self _ st Hreg).
    unfold GstreamerPipeline.stop, call. rewrite Hp. unfold_monad. rewrite Hset.
    cbv beta iota.
    destruct (StateChangeReturn_eqb rc FAILURE); cbv beta iota;
      rewrite (py_set_same _ _ _ Hreg);
      cbn [py_contains String.eqb Ascii.eqb Bool.eqb];
      unfold lift; cbn [globals pipelines];
      match goal with
      | |- context [reply websocket ?ty ?pl ?g] =>
          destruct (reply_run websocket ty pl g) as (r & g' & Hrun & _ & Htr & _)
      end;
      cbn zeta in Hrun, Htr; cbn [the_world trace] in Hrun, Htr; rewrite Hrun;
      exists {| pipelines := pipelines st; globals := g' |}, r;
      (split; [by destruct r|]); split; done.
Qed.

(** The statuses of a list of registered ids name those ids, in order. *)
Lemma statuses_name_their_ids (ids : list string) (st st1 : State) (l : list value) :
  registered_under_own_id st ->
  statuses ids st = (Return l, st1) ->
  map (field "id") l = map (fun k => Some (VStr k)) ids /\
  registered_under_own_id st1 /\
  map fst (pipelines st1) = map fst (pipelines st).
Proof.
  revert st st1 l. induction ids as [|pipeline_id ids IH]; intros st st1 l Hown; simpl.
  - unfold_monad. by intros [= <- <-].
  - unfold_monad. unfold invoke at 1.
    destruct (py_get pipeline_id (pipelines st)) as [self|] eqn:Hreg; [|discriminate].
    destruct (GstreamerPipeline.get_status self (globals st))
      as [[[self' status]|e] g] eqn:Hpoll; [|discriminate].
    destruct (get_status_keeps _ _ _ _ _ Hpoll) as (Hid & _ & Hname).
    pose proof (py_get_Forall _ _ _ _ Hown Hreg) as Hself. simpl in Hself.
    match goal with
    | |- context [statuses ids ?s] =>
        destruct (statuses ids s) as [[rest|e] st2] eqn:Hrest; [|discriminate];
        destruct (IH s st2 rest) as (Hids & Hown2 & Hkeys); [|done|]
    end.
    { unfold registered_under_own_id. simpl. apply py_set_Forall; [done|].
      simpl. congruence. }
    intros [= <- <-]. simpl. split; [|split; [done|]].
    + f_equal; [|done]. rewrite Hname. by rewrite Hself.
    + rewrite Hkeys. simpl. apply py_set_keys, py_contains_get. eauto.
Qed.

(** X14: the answer to [getPipelines], when every status query returns, is
    one [pipelinesList] to the sender with one status per registered
    pipeline, in the order of registration, each under the id it is
    registered with; the ids of the registry and their order are as
    before. *)
Theorem X14_get_pipelines_lists_the_registry
    (websocket : client) (st st1 : State) (l : list value) :
  registered_under_own_id st ->
  statuses (map fst (pipelines st)) st = (Return l, st1) ->
  exists st' r,
    handle_message websocket (parsed getPipelines) st = (Return tt, st') /\
    trace (globals st') =
      (trace (globals st) ++
       [Sent websocket
          (envelope "pipelinesList" (VDict [("pipelines", VList l)])
             (fst (loop_time_ms (the_world (globals st1))))) r])%list /\
    map (field "id") l = map (fun k => Some (VStr k)) (map fst (pipelines st)) /\
    map fst (pipelines st') = map fst (pipelines st).
Proof.
  intros Hown Hl.
  destruct (statuses_name_their_ids _ _ _ _ Hown Hl) as (Hids & _ & Hkeys).
  pose proof (quiet_statuses (map fst (pipelines st)) st) as [_ Htr0].
  rewrite Hl in Htr0. cbn [snd] in Htr0.
  unfold handle_message, dispatch, pipelines_list. unfold_monad. rewrite Hl.
  unfold lift.
  destruct (reply_run websocket "pipelinesList" (VDict [("pipelines", VList l)])
              (globals st1)) as (r & g' & Hrun & _ & Htr & _).
  cbn zeta in Hrun, Htr. rewrite Hrun.
  exists {| pipelines := pipelines st1; globals := g' |}, r.
  split; [by destruct r|]. cbn [globals pipelines].
  split; [by rewrite Htr, Htr0|]. done.
Qed.

(** X15: the polling loop, for as many turns as it runs, registers
    nothing, removes nothing and moves nothing in the registry, and connects
    and disconnects nobody. *)
Theorem X15_polling_keeps_registry_and_clients (fuel : nat) (st : State) :
  map fst (pipelines (snd (send_stats_updates fuel st))) = map fst (pipelines st) /\
  clients (globals (snd (send_stats_updates fuel st))) = clients (globals st).
Proof.
  revert st. induction fuel as [|fuel IH]; intros st; simpl; [done|].
  unfold_monad.
  assert (Hturn : map fst (pipelines (snd (stats_iteration st))) = map fst (pipelines st) /\
                  clients (globals (snd (stats_iteration st))) = clients (globals st)).
  { unfold stats_iteration, try_except. unfold_monad.
    destruct (stats_pass_keeps (pipelines st) st) as (_ & _ & Hk & Hcl).
    by destruct (for_each (pipelines st) stats_update st) as [[[]|e] st1]. }
  destruct (stats_iteration st) as [[[]|e] st1]; simpl in *; [|done].
  destruct (IH st1) as [Hk Hcl]. destruct Hturn as [Hk1 Hcl1].
  split; congruence.
Qed.
End MoreCommandFacts.

(** ** A connection from its first message to its last *)

Lemma add_remove_client (c : client) (cs : gset client) :
  ({[c]} ∪ cs) ∖ {[c]} = cs ∖ {[c]}.
Proof.
  apply set_eq. intros x.
  rewrite !elem_of_difference, elem_of_union, elem_of_singleton. tauto.
Qed.

Section ConnectionFacts.
Context {R : Runtime}.

Lemma answers_speaks {A : Type} (websocket : client) (m : M State A) :
  answers websocket m -> speaks_to websocket m.
Proof.
  intros H st. destruct (H st) as [Hcl (new & Htr & Hnew)]. split; [done|].
  exists new. split; [done|].
  destruct Hnew as [->|(msg & r & ->)]; [constructor|].
  constructor; [by exists msg, r | constructor].
Qed.

Lemma speaks_bind {A B : Type} (websocket : client) (m : M State A) (k : A -> M State B) :
  speaks_to websocket m -> (forall a, speaks_to websocket (k a)) ->
  speaks_to websocket (bind m k).
Proof.
  intros Hm Hk st. unfold bind. specialize (Hm st).
  destruct (m st) as [[a|e] st1]; simpl in *; [|done].
  destruct Hm as [Hcl1 (new1 & Htr1 & Hall1)].
  destruct (Hk a st1) as [Hcl (new & Htr & Hall)].
  split; [by rewrite Hcl|]. exists (new1 ++ new)%list.
  split; [by rewrite Htr, Htr1, app_assoc | by apply Forall_app].
Qed.

Lemma round_answers (websocket : client) (message : incoming) :
  answers websocket (handle_message websocket message).
Proof.
  intros st. destruct message as [text|c]; simpl.
  - split; [done|]. exists []. rewrite app_nil_r. split; [done | by left].
  - unfold try_except. pose proof (answers_dispatch websocket c st) as H.
    by destruct (dispatch websocket c st) as [[[]|e] st1].
Qed.

Lemma rounds_speak (websocket : client) (messages : list incoming) :
  speaks_to websocket (for_each messages (handle_message websocket)).
Proof.
  induction messages as [|message messages IH]; simpl.
  - intros st. split; [done|]. exists []. rewrite app_nil_r. split; [done | constructor].
  - apply speaks_bind; [apply answers_speaks, round_answers|]. intros _. exact IH.
Qed.

(** X16: however a connection ends (its messages run out, the transport
    raises [ConnectionClosed] or anything else is raised), [handle_websocket]
    leaves its client out of the connected set and every other client where
    it was; a [ConnectionClosed] never leaves the handler; and everything
    the handler sent over the life of the connection went to its own
    client. *)
Theorem X16_connection_always_deregisters
    (websocket : client) (messages : list incoming) (closed : option exn) (st : State) :
  exists r st' new,
    handle_websocket websocket messages closed st = (r, st') /\
    clients (globals st') = clients (globals st) ∖ {[websocket]} /\
    (forall reason, r <> Raise (ConnectionClosed reason)) /\
    trace (globals st') = (trace (globals st) ++ new)%list /\
    Forall (sent_to websocket) new.
Proof.
  unfold handle_websocket. unfold bind at 1. unfold update_clients at 1. cbv beta iota.
  match goal with
  | |- context [bind (pipelines_list websocket) ?k ?s] =>
      assert (Hbody : speaks_to websocket (bind (pipelines_list websocket) k));
      [|destruct (Hbody s) as [Hcl (new & Htr & Hall)];
        destruct (bind (pipelines_list websocket) k s) as [r st1]]
  end.
  { apply speaks_bind.
    - apply answers_speaks. exact (answers_dispatch websocket getPipelines).
    - intros _. apply speaks_bind; [apply rounds_speak|].
      intros _ st0. destruct closed as [e|]; simpl;
        (split; [done|]); exists []; rewrite app_nil_r; (split; [done | constructor]). }
  cbn [snd globals clients trace] in Hcl, Htr.
  unfold update_clients. cbv beta iota.
  pose proof (add_remove_client websocket (clients (globals st))) as Hout.
  destruct r as [[]|[reason'|msg]];
    eexists _, _, new; (split; [reflexivity|]); cbn [globals clients trace];
    (split; [by rewrite Hcl, Hout|]); (split; [|done]); intros reason; discriminate.
Qed.
End ConnectionFacts.

(** ** The endpoint path *)

(** X17: [path_filter] lets a handshake through exactly when its path is
    the configured one, or is empty while the configured one is ["/"];
    every other path is refused with status 404 and a body that names the
    configured path. With [GSTREAMER_WS_PATH] unset the configured path is
    ["/gstreamer"], so the root path is refused. *)
Theorem X17_path_filter_accepts_the_endpoint_only
    (environ : list (string * string)) (path : string) :
  let ws_path := default "/gstreamer" (py_get "GSTREAMER_WS_PATH" environ) in
  (path_filter environ path = None <-> path = ws_path \/ (ws_path = "/" /\ path = "")) /\
  (path_filter environ path <> None ->
   path_filter environ path
   = Some (404, [("Content-Type", "text/plain")],
           "Not Found - WebSocket endpoint is at " ++ ws_path)) /\
  (py_get "GSTREAMER_WS_PATH" environ = None ->
   (path_filter environ path = None <-> path = "/gstreamer") /\
   path_filter environ "/" <> None /\ path_filter environ "" <> None).
Proof.
  cbn zeta. unfold path_filter.
  destruct (py_get "GSTREAMER_WS_PATH" environ) as [ws_path|]; cbn [default].
  - unfold id.
    destruct (String.eqb path ws_path) eqn:E1; simpl.
    + apply String.eqb_eq in E1. repeat split; try done; auto.
    + apply String.eqb_neq in E1.
      destruct (String.eqb ws_path "/") eqn:E2; simpl.
      * apply String.eqb_eq in E2. destruct (String.eqb path "") eqn:E3; simpl.
        -- apply String.eqb_eq in E3. repeat split; try done; auto.
        -- apply String.eqb_neq in E3. repeat split; try done.
           intros [?|[_ ?]]; done.
      * apply String.eqb_neq in E2. repeat split; try done.
        intros [?|[? _]]; done.
  - unfold id.
    destruct (String.eqb path "/gstreamer") eqn:E1; simpl.
    + apply String.eqb_eq in E1. repeat split; try done; auto.
    + apply String.eqb_neq in E1. repeat split; try done.
      intros [?|[? _]]; done.
Qed.

Lemma X17_witness :
  path_filter [] "/" = Some (404, [("Content-Type", "text/plain")],
                             "Not Found - WebSocket endpoint is at /gstreamer") /\
  path_filter [("GSTREAMER_WS_PATH", "/")] "" = None.
Proof.
  split.
  - apply (proj1 (proj2 (X17_path_filter_accepts_the_endpoint_only [] "/"))).
    apply (proj2 (proj2 (X17_path_filter_accepts_the_endpoint_only [] "/")) eq_refl).
  - apply (proj1 (X17_path_filter_accepts_the_endpoint_only
                    [("GSTREAMER_WS_PATH", "/")] "")).
    right. split; reflexivity.
Defined.

(** ** Shutdown *)

Section ShutdownFacts.
Context {R : Runtime}.
Variable mainloop_is_running : M world bool.
Variable mainloop_quit : M world unit.
Variable ws_close : client -> M world unit.
Variable loop_stop : M world unit.

Lemma call_quiet {A : Type} (m : M world A) (g : Globals) :
  clients (snd (call m g)) = clients g /\ trace (snd (call m g)) = trace g.
Proof. unfold call. by destruct (m (the_world g)). Qed.

Lemma run_all_quiet {A : Type} (aws : list (M Globals (outcome A))) (g : Globals) :
  Forall (fun aw => forall g, clients (snd (aw g)) = clients g /\
                              trace (snd (aw g)) = trace g) aws ->
  clients (snd (run_all aws g)) = clients g /\ trace (snd (run_all aws g)) = trace g.
Proof.
  intros H. revert g. induction H as [|aw aws Haw _ IH]; intros g; simpl; [done|].
  unfold_monad. destruct (Haw g) as [Hcl Htr].
  destruct (aw g) as [[r|e] g1]; simpl in *; [|done].
  destruct (IH g1) as [Hcl1 Htr1].
  destruct (run_all aws g1) as [[rs|e] g2]; simpl in *; split; congruence.
Qed.

Lemma closes_quiet (cs : list client) (g : Globals) :
  let res := gather (map (fun c => attempt (call (ws_close c))) cs) false g in
  clients (snd res) = clients g /\ trace (snd res) = trace g.
Proof.
  cbn zeta. unfold gather, bind.
  match goal with
  | |- context [run_all ?aws g] =>
      destruct (run_all_quiet aws g) as [Hcl Htr];
      [|destruct (run_all aws g) as [[rs|e] g1]]
  end.
  - apply Forall_forall. intros aw [c [-> _]]%list_elem_of_fmap g0.
    unfold attempt. pose proof (call_quiet (ws_close c) g0) as H.
    by destruct (call (ws_close c) g0).
  - simpl in *. unfold_monad. by destruct (first_exception rs).
  - done.
Qed.

Lemma bind_pipelines {A B : Type} (m : M State A) (k : A -> M State B) :
  (forall s, pipelines (snd (m s)) = pipelines s) ->
  (forall a s, pipelines (snd (k a s)) = pipelines s) ->
  forall s, pipelines (snd (bind m k s)) = pipelines s.
Proof.
  intros Hm Hk s. unfold bind. specialize (Hm s).
  destruct (m s) as [[a|e] s1]; simpl in *; [|done].
  by rewrite Hk.
Qed.

Lemma shutdown_pipeline_quiet (item : string * GstreamerPipeline.t) :
  quiet (shutdown_pipeline item).
Proof.
  unfold shutdown_pipeline.
  apply quiet_bind; [apply quiet_invoke, delete_frame|].
  intros _. apply quiet_update_pipelines.
Qed.

Lemma for_each_quiet {A : Type} (items : list A) (body : A -> M State unit) :
  (forall item, quiet (body item)) -> quiet (for_each items body).
Proof.
  intros H. induction items as [|item items IH]; simpl; [apply quiet_ret|].
  apply quiet_bind; [apply H | by intros _].
Qed.

(** The loop of [shutdown] over the registry it starts from: when it comes
    to its end the registry is empty. *)
Lemma shutdown_loop_empties (items : list (string * GstreamerPipeline.t))
    (st st' : State) :
  pipelines st = items ->
  for_each items shutdown_pipeline st = (Return tt, st') ->
  pipelines st' = [].
Proof.
  revert st. induction items as [|[k v] items IH]; intros st Hreg; simpl.
  - unfold_monad. by intros [= <-].
  - unfold shutdown_pipeline at 1. unfold_monad. cbn [fst].
    unfold invoke. rewrite Hreg. cbn [py_get]. rewrite String.eqb_refl.
    destruct (GstreamerPipeline.delete v (globals st)) as [[[v' result]|e] g1];
      [|discriminate].
    unfold update_pipelines. cbn [pipelines globals py_set py_del].
    rewrite String.eqb_refl. cbn [py_del]. rewrite String.eqb_refl.
    apply IH. reflexivity.
Qed.

(** X18: [shutdown] sends no message to anyone and leaves the set of clients
    as it is; when it returns the registry is empty, every handle in it
    having been deleted in the order of registration. An exception out of
    the first [delete] ends it there: it raises with the registry untouched,
    before the main loop is quit, a connection closed or the event loop
    stopped. *)
Theorem X18_shutdown_empties_the_registry (st : State) :
  let res := shutdown mainloop_is_running mainloop_quit ws_close loop_stop st in
  clients (globals (snd res)) = clients (globals st) /\
  trace (globals (snd res)) = trace (globals st) /\
  (fst res = Return tt -> pipelines (snd res) = []) /\
  (forall k v rest e g1,
     pipelines st = (k, v) :: rest ->
     GstreamerPipeline.delete v (globals st) = (Raise e, g1) ->
     res = (Raise e, {| pipelines := pipelines st; globals := g1 |})).
Proof.
  cbn zeta. unfold shutdown.
  set (after_loop :=
         (let! running := lift (call mainloop_is_running) in
          (if (running : bool) then lift (call mainloop_quit) else ret tt) ;;
          (fun st' =>
             if bool_decide (clients (globals st') = ∅) then (Return tt, st')
             else
               (lift (gather (map (fun c => attempt (call (ws_close c)))
                                (elements (clients (globals st')))) false) ;;
                ret tt) st') ;;
          lift (call loop_stop)) : M State unit).
  assert (Hafter : quiet after_loop /\
                   forall s, pipelines (snd (after_loop s)) = pipelines s).
  { assert (Hcloses : quiet (fun st' : State =>
               if bool_decide (clients (globals st') = ∅) then (Return tt, st')
               else
                 (lift (gather (map (fun c => attempt (call (ws_close c)))
                                  (elements (clients (globals st')))) false) ;;
                  ret tt) st') /\
             forall s, pipelines (snd ((fun st' : State =>
               if bool_decide (clients (globals st') = ∅) then (Return tt, st')
               else
                 (lift (gather (map (fun c => attempt (call (ws_close c)))
                                  (elements (clients (globals st')))) false) ;;
                  ret tt) st') s)) = pipelines s).
    { split.
      - intros s. cbv beta. case_bool_decide; [done|].
        unfold bind, lift.
        pose proof (closes_quiet (elements (clients (globals s))) (globals s)) as Hcl.
        cbn zeta in Hcl.
        by destruct (gather _ false (globals s)) as [[rs|e] g1].
      - intros s. cbv beta. case_bool_decide; [done|].
        unfold bind, lift.
        by destruct (gather _ false (globals s)) as [[rs|e] g1]. }
    destruct Hcloses as [Hq Hp].
    split.
    - subst after_loop. apply quiet_bind; [apply quiet_lift, call_quiet|].
      intros running. apply quiet_bind.
      + destruct running; [apply quiet_lift, call_quiet | apply quiet_ret].
      + intros _. apply quiet_bind; [exact Hq|].
        intros _. apply quiet_lift, call_quiet.
    - subst after_loop. apply bind_pipelines; [intros s; apply lift_pipelines|].
      intros running. apply bind_pipelines.
      + intros s. destruct running; [apply lift_pipelines | done].
      + intros _. apply bind_pipelines; [exact Hp|].
        intros _ s. apply lift_pipelines. }
  destruct Hafter as [Hq Hp].
  change (let res := bind (for_each (pipelines st) shutdown_pipeline)
                       (fun _ => after_loop) st in
          clients (globals (snd res)) = clients (globals st) /\
          trace (globals (snd res)) = trace (globals st) /\
          (fst res = Return tt -> pipelines (snd res) = []) /\
          (forall k v rest e g1,
             pipelines st = (k, v) :: rest ->
             GstreamerPipeline.delete v (globals st) = (Raise e, g1) ->
             res = (Raise e, {| pipelines := pipelines st; globals := g1 |}))).
  cbn zeta.
  assert (Hquiet : quiet (bind (for_each (pipelines st) shutdown_pipeline)
                            (fun _ => after_loop))).
  { apply quiet_bind; [apply for_each_quiet, shutdown_pipeline_quiet | by intros _]. }
  destruct (Hquiet st) as [Hcl Htr].
  split; [exact Hcl|]. split; [exact Htr|]. split.
  - unfold bind.
    destruct (for_each (pipelines st) shutdown_pipeline st) as [[[]|e] st1] eqn:Hloop;
      [|discriminate].
    intros _. rewrite Hp. by apply (shutdown_loop_empties (pipelines st) st).
  - intros k v rest e g1 Hreg Hraise. unfold bind. rewrite Hreg. simpl.
    unfold shutdown_pipeline at 1. unfold_monad. cbn [fst].
    unfold invoke. rewrite Hreg. cbn [py_get]. rewrite String.eqb_refl.
    by rewrite Hraise.
Qed.
End ShutdownFacts.

(** ** More runs on the small runtimes *)

Lemma X2_witness :
  (exists result,
     @GstreamerPipeline.start Toy.runtime
       (GstreamerPipeline.init "p1" "Pipeline p1" [Toy.videotestsrc])
       (globals Toy.two_clients)
     = (Return (GstreamerPipeline.init "p1" "Pipeline p1" [Toy.videotestsrc], result),
        globals Toy.two_clients) /\
     py_get "errorCode" result = Some (VStr "not-created")) /\
  (exists result,
     fst (@GstreamerPipeline.start Toy.runtime Toy.p1 (globals Runs.p1_stuck))
     = Return (Toy.p1, result) /\
     py_get "errorCode" result = Some (VStr "start-failed")) /\
  (exists result,
     fst (@GstreamerPipeline.start Toy.runtime Toy.p1 (globals Toy.with_p1))
     = Return (Toy.p1, result) /\
     py_contains "errorCode" result = false /\
     py_get "state" result = Some (VStr "PLAYING")).
Proof.
  split; [|split].
  - apply (proj1 (@X2_start_requests_playing Toy.runtime
                    (GstreamerPipeline.init "p1" "Pipeline p1" [Toy.videotestsrc])
                    (globals Toy.two_clients))).
    reflexivity.
  - destruct (proj2 (@X2_start_requests_playing Toy.runtime Toy.p1
                       (globals Runs.p1_stuck)) 0%nat eq_refl)
      as (_ & Hfail & _).
    apply (Hfail Toy.stuck_world). reflexivity.
  - destruct (proj2 (@X2_start_requests_playing Toy.runtime Toy.p1
                       (globals Toy.with_p1)) 0%nat eq_refl)
      as (_ & _ & Hok).
    eapply (Hok SUCCESS); [vm_compute; reflexivity | discriminate].
Defined.

Lemma X3_witness :
  exists self1,
    GstreamerPipeline.pipeline self1 = None /\
    GstreamerPipeline.bus_watch_id self1 = None /\
    exists r,
      @GstreamerPipeline.start Toy.runtime self1 (globals Toy.with_p1)
      = (Return (self1, r), globals Toy.with_p1) /\
      py_get "errorCode" r = Some (VStr "not-created").
Proof.
  destruct (@GstreamerPipeline.delete Toy.runtime Toy.p1 (globals Toy.with_p1))
    as [[[self1 result]|e] g1] eqn:Hdelete; [|vm_compute in Hdelete; discriminate].
  destruct (@X3_deleted_handle_is_not_created Toy.runtime _ _ _ _ _ Hdelete)
    as (Hnone & _ & Hwatch & Hall).
  exists self1. split; [exact Hnone|]. split.
  - apply Hwatch; [discriminate | reflexivity].
  - destruct (Hall (globals Toy.with_p1)) as [Hstart _]. exact Hstart.
Defined.

(** ["p1"] playing, 2006 seconds in: 60180 frames on top of the 100. *)
Lemma X4_witness :
  exists self',
    @GstreamerPipeline.get_status Toy.runtime Toy.p1 (globals Toy.p1_playing)
    = (Return (self', [("id", VStr "p1");
                       ("state", VStr "PLAYING");
                       ("stats", VDict (GstreamerPipeline.stats self'))]),
       globals Toy.p1_playing) /\
    GstreamerPipeline.stats self'
    = [("bufferHealth", VInt 80); ("bitrate", VInt 2500000);
       ("framesReceived", VInt 60280); ("framesDropped", VInt 1003);
       ("latency", VInt 150)].
Proof.
  destruct (@X4_get_status_reports_engine_state Toy.runtime Toy.p1 0%nat
              (globals Toy.p1_playing) PLAYING
              (the_world (globals Toy.p1_playing)) (the_world (globals Toy.p1_playing))
              true (2000000000 * 1003) eq_refl)
    as (self' & received & dropped & Hrun & _ & _ & Hstats & _ & Hfloat & _).
  - vm_compute. reflexivity.
  - vm_compute. reflexivity.
  - exists self'. split; [exact Hrun|].
    destruct (Hfloat eq_refl) as [Hreceived Hdropped].
    vm_compute in Hreceived, Hdropped. by rewrite Hstats, Hreceived, Hdropped.
Defined.

(** An end of stream for ["p1"], on the thread of the GLib main loop. *)
Lemma X5_witness :
  @GstreamerPipeline.bus_callback Toy.runtime GLibThread.event_loop MsgEOS
    (Toy.p1, globals Toy.with_p1)
  = (Raise (Error "There is no current event loop in thread 'Thread-1'."),
     (Toy.p1, globals Toy.with_p1)).
Proof.
  pose proof (proj1 (proj2 (@X5_callback_raises_where_no_loop_is_current Toy.runtime
                              GLibThread.event_loop Toy.p1 (globals Toy.with_p1)
                              (Error "There is no current event loop in thread 'Thread-1'.")
                              (the_world (globals Toy.with_p1)) eq_refl))) as H.
  rewrite H. vm_compute. reflexivity.
Defined.

(** A state change of ["p1"] on a thread that has a loop: the loop is
    handed the broadcast of the change. *)
Lemma X6_witness :
  let run := @GstreamerPipeline.bus_callback LoopThread.runtime LoopThread.event_loop
               (MsgStateChanged 0%nat READY PAUSED VOID_PENDING)
               (Toy.p1, globals LoopThread.with_p1) in
  fst run = Return true /\
  snd (the_world (snd (snd run)))
  = [[("type", VStr "pipelineStateChanged");
      ("payload", VDict [("id", VStr "p1");
                         ("state", VStr "PAUSED");
                         ("message", VStr "State changed from READY to PAUSED")])]] /\
  trace (snd (snd run)) = trace (globals LoopThread.with_p1).
Proof.
  pose proof (@X6_state_changes_are_handed_to_the_loop LoopThread.runtime
                LoopThread.event_loop Toy.p1 (globals LoopThread.with_p1) 0%nat
                (the_world (globals LoopThread.with_p1)) eq_refl) as H.
  cbv zeta in H. destruct H as (_ & H & _).
  cbv zeta. rewrite (H 0%nat READY PAUSED VOID_PENDING eq_refl).
  repeat split; vm_compute; reflexivity.
Defined.

(** A state change of element 7 inside the pipeline is not passed on. *)
Lemma X7_witness :
  @GstreamerPipeline.bus_callback Toy.runtime GLibThread.event_loop
    (MsgStateChanged 7%nat READY PAUSED VOID_PENDING) (Toy.p1, globals Toy.with_p1)
  = (Return true, (Toy.p1, globals Toy.with_p1)).
Proof.
  apply (proj1 (@X7_other_bus_messages_do_nothing Toy.runtime GLibThread.event_loop
                  Toy.p1 (globals Toy.with_p1))).
  discriminate.
Defined.

Lemma X8_witness :
  exists st' new,
    @handle_message Toy.runtime 1%nat Toy.delete_p1 Toy.with_p1 = (Return tt, st') /\
    clients (globals st') = clients (globals Toy.with_p1) /\
    trace (globals st') = (trace (globals Toy.with_p1) ++ new)%list /\
    (new = [] \/ exists msg r, new = [Sent 1%nat msg r]).
Proof.
  exact (@X8_a_round_answers_its_sender_only Toy.runtime 1%nat Toy.delete_p1 Toy.with_p1).
Defined.

Lemma toy_with_p1_sound :
  @unique_ids Toy.runtime Toy.with_p1 /\
  @registered_under_own_id Toy.runtime Toy.with_p1 /\
  @registered_with_pipeline Toy.runtime Toy.with_p1.
Proof.
  split; [|split].
  - unfold unique_ids. vm_compute. apply NoDup_singleton.
  - unfold registered_under_own_id. vm_compute. by repeat constructor.
  - unfold registered_with_pipeline. vm_compute. by repeat constructor.
Qed.

Lemma X9_witness :
  let st' := snd (@handle_message Toy.runtime 2%nat (Runs.create_with None) Toy.with_p1) in
  unique_ids st' /\ registered_under_own_id st' /\ registered_with_pipeline st'.
Proof.
  destruct toy_with_p1_sound as (Hu & Hid & Hp).
  exact (proj1 (@X9_registry_invariants_are_kept Toy.runtime Toy.with_p1 Hu Hid Hp)
           2%nat (Runs.create_with None)).
Defined.

(** A [createPipeline] without an id, at clock 1002. *)
Lemma X10_witness :
  exists (new : GstreamerPipeline.t) (st' : @State Toy.runtime),
    @handle_message Toy.runtime 2%nat (Runs.create_with None) Toy.with_p1
    = (Return tt, st') /\
    pipelines st' = (pipelines Toy.with_p1 ++ [("pipeline-1002", new)])%list /\
    GstreamerPipeline.id new = "pipeline-1002".
Proof.
  pose proof (@X10_create_registers_last Toy.runtime 2%nat
                {| cp_id := None; cp_description := None;
                   cp_pipeline :=
                     Some {| def_elements := Some [Toy.videotestsrc; Runs.udpsink] |} |}
                Toy.with_p1 ltac:(discriminate)) as H.
  cbn zeta in H.
  destruct H as (new & result & g1 & st' & r & _ & Hrun & Hcases).
  - vm_compute. reflexivity.
  - exists new, st'. split; [exact Hrun|].
    destruct (py_contains "errorCode" result).
    + destruct Hcases as (Hreg & _).
      vm_compute in Hrun. injection Hrun as <-. vm_compute in Hreg. discriminate.
    + destruct Hcases as (Hreg & Hid & _). split; [exact Hreg | exact Hid].
Defined.

(** The pipeline registered under the empty id cannot be deleted. *)
Lemma X11_witness :
  py_contains "" (pipelines Runs.with_empty_id) = true /\
  exists st',
    @handle_message Toy.runtime 1%nat (parsed (deletePipeline (Some ""))) Runs.with_empty_id
    = (Return tt, st') /\
    pipelines st' = pipelines Runs.with_empty_id /\
    map error_code_of (trace (globals st'))
    = (map error_code_of (trace (globals Runs.with_empty_id))
       ++ [Some (VStr "not-found")])%list.
Proof.
  split; [vm_compute; reflexivity|].
  destruct (@X11_empty_id_is_never_found Toy.runtime 1%nat (Some "")
              (deletePipeline (Some "")) Runs.with_empty_id)
    as (st' & r & Hrun & Hreg & Htr).
  - by right.
  - apply elem_of_cons. right. apply elem_of_cons. right. apply elem_of_cons. by left.
  - exists st'. split; [exact Hrun|]. split; [exact Hreg|].
    rewrite Htr, map_app. reflexivity.
Defined.

Lemma X12_witness :
  @handle_message Faulty.runtime 1%nat (parsed (deletePipeline (Some "p1"))) Faulty.p1_lost
  = (Return tt, Faulty.p1_lost).
Proof.
  destruct (@X12_engine_exception_leaves_no_answer Faulty.runtime 1%nat "p1" Toy.p1
              Faulty.p1_lost (Error "pipeline is gone") (globals Faulty.p1_lost))
    as (_ & _ & Hdelete).
  - discriminate.
  - reflexivity.
  - destruct Hdelete as [Hrun _]; [vm_compute; reflexivity|].
    exact Hrun.
Defined.

Lemma X13_witness :
  exists st' r,
    @handle_message Toy.runtime 1%nat (parsed (startPipeline (Some "p1"))) Runs.p1_stuck
    = (Return tt, st') /\
    pipelines st' = pipelines Runs.p1_stuck /\
    trace (globals st') =
      [Sent 1%nat
         (envelope "pipelineError"
            (VDict [("id", VStr "p1");
                    ("errorCode", VStr "start-failed");
                    ("errorMessage", VStr "Failed to start pipeline")])
            1000) r].
Proof.
  destruct (proj1 (@X13_start_and_stop_answer_as_the_engine_does Toy.runtime 1%nat "p1"
                     Toy.p1 0%nat Runs.p1_stuck FAILURE Toy.stuck_world
                     ltac:(discriminate) eq_refl eq_refl))
    as (st' & r & Hrun & Hreg & Htr).
  - reflexivity.
  - exists st', r. split; [exact Hrun|]. split; [exact Hreg | exact Htr].
Defined.

Lemma toy_p1_playing_own_id : @registered_under_own_id Toy.runtime Toy.p1_playing.
Proof. unfold registered_under_own_id. vm_compute. by repeat constructor. Qed.

Lemma X14_witness :
  exists st' l,
    @handle_message Toy.runtime 2%nat (parsed getPipelines) Toy.p1_playing
    = (Return tt, st') /\
    map (field "id") l = [Some (VStr "p1")] /\
    map type_of (trace (globals st'))
    = (map type_of (trace (globals Toy.p1_playing)) ++ [Some (VStr "pipelinesList")])%list.
Proof.
  destruct (@statuses Toy.runtime (map fst (pipelines Toy.p1_playing)) Toy.p1_playing)
    as [[l|e] st1] eqn:Hl; [|vm_compute in Hl; discriminate].
  destruct (@X14_get_pipelines_lists_the_registry Toy.runtime 2%nat Toy.p1_playing st1 l
              toy_p1_playing_own_id Hl)
    as (st' & r & Hrun & Htr & Hids & _).
  exists st', l. split; [exact Hrun|]. split; [exact Hids|].
  rewrite Htr, map_app. reflexivity.
Defined.

Lemma X15_witness :
  map fst (pipelines (snd (@send_stats_updates Toy.runtime 3 Toy.p1_playing))) = ["p1"] /\
  clients (globals (snd (@send_stats_updates Toy.runtime 3 Toy.p1_playing)))
  = clients (globals Toy.p1_playing).
Proof.
  exact (@X15_polling_keeps_registry_and_clients Toy.runtime 3 Toy.p1_playing).
Defined.

(** Client 3 connects, creates ["p1"] and is cut off. *)
Lemma X16_witness :
  exists r st' new,
    @handle_websocket Toy.runtime 3%nat [Toy.create_p1]
      (Some (ConnectionClosed "no close frame received or sent")) Toy.two_clients
    = (r, st') /\
    clients (globals st') = clients (globals Toy.two_clients) ∖ {[3%nat]} /\
    r <> Raise (ConnectionClosed "no close frame received or sent") /\
    trace (globals st') = (trace (globals Toy.two_clients) ++ new)%list /\
    Forall (sent_to 3%nat) new.
Proof.
  destruct (@X16_connection_always_deregisters Toy.runtime 3%nat [Toy.create_p1]
              (Some (ConnectionClosed "no close frame received or sent")) Toy.two_clients)
    as (r & st' & new & Hrun & Hcl & Hnever & Htr & Hall).
  exists r, st', new. split; [exact Hrun|]. split; [exact Hcl|].
  split; [apply Hnever|]. split; [exact Htr | exact Hall].
Defined.

Example connection_of_client_3 :
  let (r, st') := @handle_websocket Toy.runtime 3%nat [Toy.create_p1]
                    (Some (ConnectionClosed "no close frame received or sent"))
                    Toy.two_clients in
  r = Return tt /\
  map type_of (trace (globals st'))
  = [Some (VStr "pipelinesList"); Some (VStr "pipelineCreated")] /\
  elements (clients (globals st')) = [2%nat; 1%nat].
Proof. vm_compute. repeat split; reflexivity. Qed.

Lemma X18_witness :
  pipelines (snd (@shutdown Toy.runtime Runs.mainloop_is_running Runs.mainloop_quit
                    Runs.ws_close Runs.loop_stop Toy.with_p1)) = [] /\
  trace (globals (snd (@shutdown Toy.runtime Runs.mainloop_is_running Runs.mainloop_quit
                         Runs.ws_close Runs.loop_stop Toy.with_p1)))
  = trace (globals Toy.with_p1).
Proof.
  destruct (@X18_shutdown_empties_the_registry Toy.runtime Runs.mainloop_is_running
              Runs.mainloop_quit Runs.ws_close Runs.loop_stop Toy.with_p1)
    as (_ & Htr & Hempty & _).
  split; [|exact Htr]. apply Hempty. vm_compute. reflexivity.
Defined.
